(** * Ship-unloading analysis: a model of [analyse_dechargement.py]

    The development follows the script: the column names, the element-wise
    column arithmetic of section 2 ("Calculs"), the export of section 3 and
    the two passes over the written workbook.  Numbers are IEEE-754 binary64
    values (Python floats), texts are sequences of Unicode code points
    (Python [str]), the table is a list of labelled columns in column
    order, the file system is a map from paths to directories and
    workbooks.  What the script prints is left out. *)

From Stdlib Require Import ZArith NArith String Ascii Floats Bool Lia.
From stdpp Require Import base option list gmap sets.

Set Default Proof Using "Type".
Set Warnings "-inexact-float,-clear-no-such-hyp".

(** ** Python strings *)

(** A Python [str]: its code points.  [len] counts code points and
    [strip] looks at code points, so the model keeps them apart from the
    UTF-8 bytes of a literal. *)
Abbreviation pystr := (list N).

Definition continuation (b : N) : bool := N.eqb (N.land b 192) 128.

Definition lead_bits (b : N) : N :=
  if N.ltb b 128 then b
  else if N.ltb b 224 then N.land b 31
  else if N.ltb b 240 then N.land b 15
  else N.land b 7.

(** UTF-8 decoding of the bytes of a literal; [cur] is the code point
    under construction. *)
Fixpoint utf8_points (cur : option N) (bs : list N) : pystr :=
  match bs with
  | [] => match cur with Some c => [c] | None => [] end
  | b :: bs' =>
      if continuation b then
        match cur with
        | Some c => utf8_points (Some (c * 64 + N.land b 63)%N) bs'
        | None => utf8_points None bs'
        end
      else
        match cur with
        | Some c => c :: utf8_points (Some (lead_bits b)) bs'
        | None => utf8_points (Some (lead_bits b)) bs'
        end
  end.

Definition py (s : string) : pystr :=
  utf8_points None (map N_of_ascii (list_ascii_of_string s)).

(** [len(s)] *)
Definition len (s : pystr) : nat := length s.

(** [str.isspace] on one character: the code points Python treats as
    whitespace. *)
Definition isspace (c : N) : bool :=
  ((N.leb 9 c && N.leb c 13) || (N.leb 28 c && N.leb c 32)
   || N.eqb c 133 || N.eqb c 160 || N.eqb c 5760
   || (N.leb 8192 c && N.leb c 8202)
   || N.eqb c 8232 || N.eqb c 8233 || N.eqb c 8239 || N.eqb c 8287
   || N.eqb c 12288)%bool.

Fixpoint lstrip (s : pystr) : pystr :=
  match s with
  | [] => []
  | c :: s' => if isspace c then lstrip s' else s
  end.

Definition rstrip (s : pystr) : pystr := reverse (lstrip (reverse s)).

(** [s.strip()] *)
Definition strip (s : pystr) : pystr := rstrip (lstrip s).

(** ** Column names (lines 41-81 of the script) *)

Definition COL_DEBUT_PESEE : pystr := Eval vm_compute in py "Date heure 1ère pesée".
Definition COL_FIN_PESEE : pystr := Eval vm_compute in py "Date heure 2ème pesée".
Definition COL_DEBUT_DECH : pystr := Eval vm_compute in py "Date début déchargement".
Definition COL_FIN_DECH : pystr := Eval vm_compute in py "Date fin déchargement".

Definition COL_DUREE_OPERATION : pystr := Eval vm_compute in py "Durée opération".
Definition COL_TEMPS_TR : pystr := Eval vm_compute in py "Temps traitement".

Definition COL_VOL_INIT : pystr := Eval vm_compute in py "Volume initial".
Definition COL_VOL_FINAL : pystr := Eval vm_compute in py "Volume final".

Definition COL_POIDS_ENTREE : pystr := Eval vm_compute in py "Poids entrée (kg)".
Definition COL_POIDS_SORTIE : pystr := Eval vm_compute in py "Poids sortie (kg)".
Definition COL_POIDS_EAU : pystr := Eval vm_compute in py "Poids eau (kg)".

Definition COL_VOL_CHARGE_CALCULE : pystr := Eval vm_compute in py "Volume chargé (m³)".
Definition COL_POIDS_EAU_CALCULE : pystr := Eval vm_compute in py "Poids eau Calculé (kg)".
Definition COL_POIDS_NET_CALCULE : pystr := Eval vm_compute in py "Poids net Calculé (kg)".
Definition COL_POIDS_NET_RECALCULE : pystr := Eval vm_compute in py "Poids net Recalculé (kg)".

Definition NUMERIC_COLUMNS_TO_FORMAT : list pystr :=
  [COL_POIDS_EAU_CALCULE; COL_POIDS_NET_CALCULE; COL_POIDS_NET_RECALCULE].

Definition COLONNES_MODELE : list pystr :=
  [COL_DEBUT_PESEE; COL_FIN_PESEE; COL_DEBUT_DECH; COL_FIN_DECH;
   COL_VOL_INIT; COL_VOL_FINAL; COL_POIDS_ENTREE; COL_POIDS_SORTIE;
   COL_POIDS_EAU].

(** The six labels the script assigns to, in assignment order. *)
Definition COLONNES_CALCULEES : list pystr :=
  [COL_VOL_CHARGE_CALCULE; COL_POIDS_EAU_CALCULE; COL_DUREE_OPERATION;
   COL_TEMPS_TR; COL_POIDS_NET_CALCULE; COL_POIDS_NET_RECALCULE].

(** ** Exceptions and results *)

Abbreviation path := (list pystr).

(** The exceptions of the model: a missing column label, operands of the
    wrong type, and a failed file operation: an [OSError] (of whatever
    subclass) with the path Python gives as its [filename]. *)
Inductive exception :=
| KeyError (label : pystr)
| TypeError
| OSError (p : path).

Inductive result (A : Type) :=
| Ok (a : A)
| Raise (e : exception).
Arguments Ok {A} a.
Arguments Raise {A} e.

#[global] Instance result_ret : MRet result := fun _ a => Ok a.
#[global] Instance result_bind : MBind result := fun _ _ f m =>
  match m with
  | Ok a => f a
  | Raise e => Raise e
  end.

(** ** Floats and rounding *)

Module Num.
Local Open Scope float_scope.

(** The integer nearest to [n / d] for a positive [d], the even one of
    the two when [n / d] lies halfway. *)
Definition demi_pair (n d : Z) : Z :=
  let q := (n / d)%Z in
  match (2 * (n mod d) ?= d)%Z with
  | Lt => q
  | Gt => (q + 1)%Z
  | Eq => if Z.even q then q else (q + 1)%Z
  end.

(** The number of hundredths nearest to the magnitude [m * 2^e]. *)
Definition centiemes (m : positive) (e : Z) : Z :=
  match e with
  | Zneg p => demi_pair (100 * Zpos m) (2 ^ Zpos p)
  | _ => (100 * Zpos m * 2 ^ e)%Z
  end.

(** The float nearest to [k] hundredths, with the sign [s]: the
    correctly rounded quotient of the integer [k] by 100. *)
Definition de_centiemes (s : bool) (k : Z) : float :=
  match k with
  | Zpos p =>
      SF2Prim (SFdiv prec emax (S754_finite s p 0) (S754_finite false 100 0))
  | _ => if s then neg_zero else zero
  end.

(** [round(x, 2)] on a Python float, as the cells of a column read with
    [dtype="object"] are: NaN, the infinities and the zeros are
    returned as they are; a finite value is turned into its correctly
    rounded decimal text with two digits after the point (ties to the
    even digit), and that text is read back as the nearest float. *)
Definition round2 (x : float) : float :=
  match Prim2SF x with
  | S754_finite s m e => de_centiemes s (centiemes m e)
  | _ => x
  end.

(** [1 + 6.6 / 100] and [1 - 7 / 100], evaluated as Python evaluates
    them. *)
Definition facteur_eau : float := 1 + 6.6 / 100.
Definition facteur_net : float := 1 - 7 / 100.

End Num.

(** ** Columns and tables *)

(** A column of the table: Python floats (NaN is the missing value),
    timestamps and time spans in nanoseconds ([None] is NaT), or texts.
    The table is read with [dtype="object"], so a numeric column holds
    Python numbers and the arithmetic and [round] of section 2 are
    Python's, cell by cell.  A cell that Excel stores as a whole number
    reaches the formulas as a Python [int]; the model holds it as the
    float of the same value, which the differences, the products by a
    float and the roundings of the script do not tell apart below 2^53.
    The formulas of the script are written for numeric and timestamp
    columns; the model raises [TypeError] on every other combination of
    operand types. *)
Inductive column :=
| Floats (xs : list float)
| Dates (ts : list (option Z))
| Spans (ds : list (option Z))
| Objects (vs : list pystr).

(** The table: labelled columns, in column order. *)
Abbreviation DataFrame := (list (pystr * column)).

(** [df[label]] on a table whose labels are distinct: the column that
    carries the label, [KeyError] when there is none.  For a label
    carried by several columns pandas hands out a sub-table, and the
    formulas of the script then raise [ValueError]; the function below
    reads the first such column, so it is the script's [df[label]] on
    tables with distinct labels only. *)
Fixpoint getitem (df : DataFrame) (label : pystr) : result column :=
  match df with
  | [] => Raise (KeyError label)
  | (l, c) :: df' => if decide (l = label) then Ok c else getitem df' label
  end.

(** [df[label] = c]: replaces the column that carries the label, or
    appends a new last column. *)
Fixpoint setitem (df : DataFrame) (label : pystr) (c : column) : DataFrame :=
  match df with
  | [] => [(label, c)]
  | (l, c0) :: df' =>
      if decide (l = label) then (l, c) :: df'
      else (l, c0) :: setitem df' label c
  end.

Definition sub_time (a b : option Z) : option Z :=
  match a, b with
  | Some x, Some y => Some (x - y)%Z
  | _, _ => None
  end.

(** [a - b] on two columns of one table *)
Definition col_sub (a b : column) : result column :=
  match a, b with
  | Floats xs, Floats ys => Ok (Floats (zip_with PrimFloat.sub xs ys))
  | Dates xs, Dates ys => Ok (Spans (zip_with sub_time xs ys))
  | _, _ => Raise TypeError
  end.

(** [a * k] for a float [k] *)
Definition col_mul (a : column) (k : float) : result column :=
  match a with
  | Floats xs => Ok (Floats ((fun x => PrimFloat.mul x k) <$> xs))
  | _ => Raise TypeError
  end.

(** [round(a, 2)] *)
Definition col_round2 (a : column) : result column :=
  match a with
  | Floats xs => Ok (Floats (Num.round2 <$> xs))
  | _ => Raise TypeError
  end.

(** [df.columns = df.columns.str.strip()] (line 165) *)
Definition nettoyer_entetes (df : DataFrame) : DataFrame :=
  (fun lc => (strip lc.1, lc.2)) <$> df.

(** Section 2 of [analyser_dechargement], lines 173-188.  The operands
    are fetched in the order Python evaluates them. *)
Definition calculs (df : DataFrame) : result DataFrame :=
  vf ← getitem df COL_VOL_FINAL;
  vi ← getitem df COL_VOL_INIT;
  d ← col_sub vf vi;
  vol ← col_round2 d;
  let df := setitem df COL_VOL_CHARGE_CALCULE vol in
  vc ← getitem df COL_VOL_CHARGE_CALCULE;
  p ← col_mul vc Num.facteur_eau;
  eau ← col_round2 p;
  let df := setitem df COL_POIDS_EAU_CALCULE eau in
  fd ← getitem df COL_FIN_DECH;
  dd ← getitem df COL_DEBUT_DECH;
  duree ← col_sub fd dd;
  let df := setitem df COL_DUREE_OPERATION duree in
  fp ← getitem df COL_FIN_PESEE;
  dp ← getitem df COL_DEBUT_PESEE;
  temps ← col_sub fp dp;
  let df := setitem df COL_TEMPS_TR temps in
  ps ← getitem df COL_POIDS_SORTIE;
  pe ← getitem df COL_POIDS_ENTREE;
  brut ← col_sub ps pe;
  pm ← getitem df COL_POIDS_EAU;
  net ← col_sub brut pm;
  netf ← col_mul net Num.facteur_net;
  netr ← col_round2 netf;
  let df := setitem df COL_POIDS_NET_CALCULE netr in
  ps ← getitem df COL_POIDS_SORTIE;
  pe ← getitem df COL_POIDS_ENTREE;
  brut ← col_sub ps pe;
  pc ← getitem df COL_POIDS_EAU_CALCULE;
  net ← col_sub brut pc;
  netf ← col_mul net Num.facteur_net;
  netr ← col_round2 netf;
  Ok (setitem df COL_POIDS_NET_RECALCULE netr).

(** ** Workbooks *)

(** The value of a cell as [openpyxl] hands it out. *)
Inductive xvalue :=
| XNone
| XStr (s : pystr)
| XNum (x : float)
| XDate (t : Z).

Record xcell := { value : xvalue; number_format : pystr }.

Definition General : pystr := Eval vm_compute in py "General".

Definition cellule_vide : xcell :=
  {| value := XNone; number_format := General |}.

(** The active sheet: the grid of cells from A1, row by row, and the
    widths set in [column_dimensions], by column index from 0.  A cell
    the grid does not hold is an empty cell. *)
Record worksheet := { rows : list (list xcell); widths : gmap nat nat }.

(** The cell of a grid, empty where the grid holds none. *)
Definition cellule (rs : list (list xcell)) (r c : nat) : xcell :=
  default cellule_vide (rs !! r ≫= (.!! c)).

Definition cell_at (ws : worksheet) (r c : nat) : xcell :=
  cellule (rows ws) r c.

Definition max_row (ws : worksheet) : nat := length (rows ws).
Definition max_column (ws : worksheet) : nat := max_list (length <$> rows ws).

(** *** appliquer_format_numerique *)

Definition num_format : pystr := Eval vm_compute in py "#,##0.00".

(** [{cell.value: idx + 1 for idx, cell in enumerate(ws[header_row])}]:
    a later cell replaces an earlier one with the same value.  Only text
    keys are kept, the lookups below are all by text. *)
Definition col_index (ligne : list xcell) : gmap pystr nat :=
  foldl (fun (m : gmap pystr nat) (ic : nat * xcell) =>
           match value ic.2 with
           | XStr s => <[s := S ic.1]> m
           | _ => m
           end)
        ∅ (imap pair ligne).

Definition avec_format (fmt : pystr) (x : xcell) : xcell :=
  {| value := value x; number_format := fmt |}.

(** [ws[f"{letter}{row}"].number_format = fmt] on one row; the cell is
    created when the row does not reach the column. *)
Definition set_number_format (fmt : pystr) (c : nat) (ligne : list xcell)
    : list xcell :=
  alter (avec_format fmt) c
    (ligne ++ replicate (S c - length ligne) cellule_vide).

(** The inner loop: rows [header_row + 1 .. max_row] of column [idx]
    (counted from 1). *)
Definition formater_colonne (idx : nat) (lignes : list (list xcell))
    : list (list xcell) :=
  match lignes with
  | [] => []
  | entete :: donnees =>
      entete :: (set_number_format num_format (idx - 1) <$> donnees)
  end.

Definition format_numerique_feuille (ws : worksheet) : worksheet :=
  let index := col_index (default [] (rows ws !! 0)) in
  foldl (fun ws col_name =>
           match index !! col_name with
           | None => ws
           | Some idx =>
               {| rows := formater_colonne idx (rows ws);
                  widths := widths ws |}
           end)
        ws NUMERIC_COLUMNS_TO_FORMAT.

(** ** Files *)

(** The file system: what each path holds, a directory or a workbook.
    The empty path is the current directory. *)
Inductive noeud :=
| Dossier
| Fichier (ws : worksheet).

Abbreviation fs := (gmap path noeud).

(** What the script takes from pandas, openpyxl and [str]: the reader,
    the cell each table value is written as, and the text of a number and
    of a date. *)
Class Bibliotheque := {
  read_excel : path → fs → result DataFrame;
  excel_of_float : float → xvalue;
  excel_of_date : option Z → xvalue;
  excel_of_span : option Z → xvalue;
  str_float : float → pystr;
  str_datetime : Z → pystr
}.

(** A computation on the file system that may raise; what was written
    before an exception stays written. *)
Definition M (A : Type) : Type := fs → fs * result A.

#[global] Instance M_ret : MRet M := fun _ a σ => (σ, Ok a).
#[global] Instance M_bind : MBind M := fun _ _ f m σ =>
  match m σ with
  | (σ', Ok a) => f a σ'
  | (σ', Raise e) => (σ', Raise e)
  end.

Definition lever {A} (r : result A) : M A := fun σ => (σ, r).

(** The path and its parents, shortest first. *)
Definition ancetres (p : path) : list path :=
  (fun n => take n p) <$> seq 1 (length p).

Definition est_dossier (σ : fs) (p : path) : Prop :=
  p = [] ∨ σ !! p = Some Dossier.

Definition est_fichier (σ : fs) (p : path) : Prop :=
  ∃ ws, σ !! p = Some (Fichier ws).

#[global] Instance est_dossier_dec σ p : Decision (est_dossier σ p).
Proof.
  unfold est_dossier. destruct (σ !! p) as [[|ws]|].
  - left. by right.
  - destruct (decide (p = [])); [left; by left | right; intros [|]; done].
  - destruct (decide (p = [])); [left; by left | right; intros [|]; done].
Defined.

#[global] Instance est_fichier_dec σ p : Decision (est_fichier σ p).
Proof.
  unfold est_fichier. destruct (σ !! p) as [[|ws]|].
  - right. intros [? ?]. done.
  - left. by exists ws.
  - right. intros [? ?]. done.
Defined.

(** [p.mkdir(parents=True, exist_ok=True)]: the first [os.mkdir(p)]
    fails when the path is a file ([FileExistsError]) or one of its
    parents is ([NotADirectoryError]); both name the path being made,
    not the file in the way.  Otherwise the path and its parents are
    directories afterwards. *)
Definition mkdir_parents (p : path) : M unit := fun σ =>
  match list_find (est_fichier σ) (ancetres p) with
  | Some _ => (σ, Raise (OSError p))
  | None => (foldr (fun q σ => <[q := Dossier]> σ) σ (ancetres p), Ok tt)
  end.

(** Writing a workbook: over a file, or as a new file of an existing
    directory. *)
Definition save (p : path) (ws : worksheet) : M unit := fun σ =>
  match σ !! p with
  | Some Dossier => (σ, Raise (OSError p))
  | Some (Fichier _) => (<[p := Fichier ws]> σ, Ok tt)
  | None =>
      if decide (est_dossier σ (removelast p))
      then (<[p := Fichier ws]> σ, Ok tt)
      else (σ, Raise (OSError p))
  end.

Definition load_workbook (p : path) : M worksheet := fun σ =>
  match σ !! p with
  | Some (Fichier ws) => (σ, Ok ws)
  | _ => (σ, Raise (OSError p))
  end.

Definition appliquer_format_numerique (wb_path : path) : M unit :=
  ws ← load_workbook wb_path;
  save wb_path (format_numerique_feuille ws).

(** *** ajuster_largeur_colonnes *)

Section Largeurs.
Context `{Bibliotheque}.

(** [str(cell.value) if cell.value is not None else ""] *)
Definition valeur_texte (v : xvalue) : pystr :=
  match v with
  | XNone => []
  | XStr s => s
  | XNum x => str_float x
  | XDate t => str_datetime t
  end.

(** The cells of column [j], top to bottom. *)
Definition colonne (ws : worksheet) (j : nat) : list xcell :=
  (fun ligne : list xcell => default cellule_vide (ligne !! j)) <$> rows ws.

Definition max_length (col : list xcell) : nat :=
  foldl (fun m cell => m `max` len (valeur_texte (value cell))) 0 col.

Definition largeur_feuille (ws : worksheet) : worksheet :=
  foldl (fun ws j =>
           {| rows := rows ws;
              widths := <[j := max_length (colonne ws j) + 2]> (widths ws) |})
        ws (seq 0 (max_column ws)).

End Largeurs.

(** *** Paths *)

(** [name.rfind(c)] *)
Fixpoint rfind (c : N) (s : pystr) : option nat :=
  match s with
  | [] => None
  | x :: s' =>
      match rfind c s' with
      | Some i => Some (S i)
      | None => if N.eqb x c then Some 0 else None
      end
  end.

Definition point : N := 46.

(** [Path.name], [Path.stem] and [Path.suffix] *)
Definition name (p : path) : pystr := default [] (last p).

Definition stem (p : path) : pystr :=
  let n := name p in
  match rfind point n with
  | Some i => if (0 <? i) && (i <? length n - 1) then take i n else n
  | None => n
  end.

Definition suffix (p : path) : pystr :=
  let n := name p in
  match rfind point n with
  | Some i => if (0 <? i) && (i <? length n - 1) then drop i n else []
  | None => []
  end.

(** ** Export and the whole analysis *)

Section Analyse.
Context `{Bibliotheque}.

Definition ajuster_largeur_colonnes (fichier_excel : path) : M unit :=
  ws ← load_workbook fichier_excel;
  save fichier_excel (largeur_feuille ws).

Definition taille (c : column) : nat :=
  match c with
  | Floats xs => length xs
  | Dates ts => length ts
  | Spans ds => length ds
  | Objects vs => length vs
  end.

(** The cell written for row [i] of a column. *)
Definition valeur_excel (c : column) (i : nat) : xvalue :=
  match c with
  | Floats xs => from_option excel_of_float XNone (xs !! i)
  | Dates ts => from_option excel_of_date XNone (ts !! i)
  | Spans ds => from_option excel_of_span XNone (ds !! i)
  | Objects vs => from_option XStr XNone (vs !! i)
  end.

Definition nb_lignes (df : DataFrame) : nat := max_list (taille <$> df.*2).

(** The number formats of the writer: a timestamp is written as a
    [datetime] cell with the writer's datetime format, a time span as a
    number of days with the format [0]. *)
Definition format_datetime : pystr :=
  Eval vm_compute in py "YYYY-MM-DD HH:MM:SS".
Definition format_timedelta : pystr := Eval vm_compute in py "0".

(** The number format of the cell written for row [i] of a column; a
    missing value (NaN, NaT) is written as an empty text and keeps
    [General], as every number and text does. *)
Definition format_excel (c : column) (i : nat) : pystr :=
  match c with
  | Dates ts => if ts !! i is Some (Some _) then format_datetime else General
  | Spans ds => if ds !! i is Some (Some _) then format_timedelta else General
  | Floats _ | Objects _ => General
  end.

(** [df.to_excel(p, index=False)]: one sheet, the labels in row 1, then
    one row per table row, in column order. *)
Definition feuille (df : DataFrame) : worksheet :=
  {| rows :=
       ((fun l => {| value := XStr l; number_format := General |}) <$> df.*1)
       :: ((fun i =>
              (fun c => {| value := valeur_excel c i;
                           number_format := format_excel c i |}) <$> df.*2)
           <$> seq 0 (nb_lignes df));
     widths := ∅ |}.

Definition to_excel (df : DataFrame) (p : path) : M unit := save p (feuille df).

Definition resultats_xlsx : pystr := Eval vm_compute in py "_resultats.xlsx".

(** Section 3 of [analyser_dechargement], lines 195-202. *)
Definition exporter (df : DataFrame) (fichier_excel dossier_sortie : path)
    : M path :=
  _ ← mkdir_parents dossier_sortie;
  let fichier_resultat := dossier_sortie ++ [stem fichier_excel ++ resultats_xlsx] in
  _ ← to_excel df fichier_resultat;
  _ ← appliquer_format_numerique fichier_resultat;
  _ ← ajuster_largeur_colonnes fichier_resultat;
  mret fichier_resultat.

Definition analyser_dechargement (fichier_excel dossier_sortie : path)
    : M path :=
  df ← (fun σ => (σ, read_excel fichier_excel σ));
  let df := nettoyer_entetes df in
  df ← lever (calculs df);
  exporter df fichier_excel dossier_sortie.

End Analyse.

(** ** What section 2 computes *)

(** The raw columns as the formulas need them: the volumes and weights
    are float columns, each pair of date columns subtracts to a column
    ([duree], [temps]). *)
Definition colonnes_brutes (df : DataFrame)
    (vf vi : list float) (duree temps : column)
    (ps pe pm : list float) : Prop :=
  getitem df COL_VOL_FINAL = Ok (Floats vf) ∧
  getitem df COL_VOL_INIT = Ok (Floats vi) ∧
  (∃ fd dd, getitem df COL_FIN_DECH = Ok fd ∧
            getitem df COL_DEBUT_DECH = Ok dd ∧ col_sub fd dd = Ok duree) ∧
  (∃ fp dp, getitem df COL_FIN_PESEE = Ok fp ∧
            getitem df COL_DEBUT_PESEE = Ok dp ∧ col_sub fp dp = Ok temps) ∧
  getitem df COL_POIDS_SORTIE = Ok (Floats ps) ∧
  getitem df COL_POIDS_ENTREE = Ok (Floats pe) ∧
  getitem df COL_POIDS_EAU = Ok (Floats pm).

Definition volume_charge (vf vi : list float) : list float :=
  Num.round2 <$> zip_with PrimFloat.sub vf vi.

Definition poids_eau (vol : list float) : list float :=
  Num.round2 <$> ((fun x => PrimFloat.mul x Num.facteur_eau) <$> vol).

Definition poids_net (ps pe eau : list float) : list float :=
  Num.round2 <$>
    ((fun x => PrimFloat.mul x Num.facteur_net) <$>
       zip_with PrimFloat.sub (zip_with PrimFloat.sub ps pe) eau).

(** The table after the six assignments. *)
Definition table_calculee (df : DataFrame)
    (vf vi : list float) (duree temps : column)
    (ps pe pm : list float) : DataFrame :=
  let vol := volume_charge vf vi in
  let eau := poids_eau vol in
  let df := setitem df COL_VOL_CHARGE_CALCULE (Floats vol) in
  let df := setitem df COL_POIDS_EAU_CALCULE (Floats eau) in
  let df := setitem df COL_DUREE_OPERATION duree in
  let df := setitem df COL_TEMPS_TR temps in
  let df := setitem df COL_POIDS_NET_CALCULE (Floats (poids_net ps pe pm)) in
  setitem df COL_POIDS_NET_RECALCULE (Floats (poids_net ps pe eau)).

(** [r] is [x] to two decimals.  NaN, the infinities and the zeros
    are kept.  For a finite [x] of magnitude [m * 2^e], written as the
    fraction [n / d] of hundredths, [r] is the float nearest to [k]
    hundredths with the sign of [x] (zero with that sign when [k] is 0,
    and otherwise the IEEE quotient of [k] by 100), where [k] is the
    integer nearest to [n / d]: at most one half away, and even when
    exactly one half away. *)
Definition deux_decimales (x r : float) : Prop :=
  match Prim2SF x with
  | S754_finite s m e =>
      let n := (100 * Zpos m * 2 ^ Z.max 0 e)%Z in
      let d := (2 ^ Z.max 0 (- e))%Z in
      ∃ k : Z,
        (2 * Z.abs (n - k * d) ≤ d)%Z ∧
        ((2 * Z.abs (n - k * d) = d)%Z → Z.even k = true) ∧
        r = match k with
            | Zpos p =>
                SF2Prim (SFdiv prec emax (S754_finite s p 0)
                           (S754_finite false 100 0))
            | _ => if s then neg_zero else zero
            end
  | _ => r = x
  end.


(** The net weight of one row: [round((t - w) * (1 - 7/100), 2)], where
    [t] is the weight difference and [w] the water weight. *)
Definition net_ligne (t w : float) : float :=
  Num.round2 (PrimFloat.mul (PrimFloat.sub t w) Num.facteur_net).

(** Column [c] is the one row 1 names [nom]: its cell in row 1 holds the
    text, and no cell further right does. *)
Definition colonne_nommee (ws : worksheet) (nom : pystr) (c : nat) : Prop :=
  value (cell_at ws 0 c) = XStr nom ∧
  ∀ c', c < c' → value (cell_at ws 0 c') ≠ XStr nom.

Definition avec_dossiers (σ : fs) (p : path) : fs :=
  foldr (fun q σ => <[q := Dossier]> σ) σ (ancetres p).






(** The path the specification announces for the result: the stem of the
    input, [_resultats], and the extension of the input. *)
Definition chemin_annonce (fichier_excel dossier_sortie : path) : path :=
  dossier_sortie ++ [stem fichier_excel ++ py "_resultats" ++ suffix fichier_excel].

Section Enonces.
Context `{Bibliotheque}.

(** The length of the text of a cell. *)
Definition longueur (x : xcell) : nat := len (valeur_texte (value x)).

(** The sheet the export leaves in the result file. *)
Definition feuille_finale (df : DataFrame) : worksheet :=
  largeur_feuille (format_numerique_feuille (feuille df)).

Definition fichier_resultat (fichier_excel dossier_sortie : path) : path :=
  dossier_sortie ++ [stem fichier_excel ++ resultats_xlsx].

End Enonces.

(** ** Tables, sheets and files of the examples *)

(** The row of the end-to-end scenario. *)
Definition df_scenario : DataFrame :=
  [(COL_DEBUT_PESEE, Dates [Some 0%Z]);
   (COL_FIN_PESEE, Dates [Some 3600000000000%Z]);
   (COL_DEBUT_DECH, Dates [Some 600000000000%Z]);
   (COL_FIN_DECH, Dates [Some 3000000000000%Z]);
   (COL_VOL_INIT, Floats [100%float]);
   (COL_VOL_FINAL, Floats [150%float]);
   (COL_POIDS_ENTREE, Floats [5000%float]);
   (COL_POIDS_SORTIE, Floats [5200%float]);
   (COL_POIDS_EAU, Floats [45%float])].

(** A row whose measured water weight is the estimated 53.3. *)
Definition df_eau_egale : DataFrame :=
  setitem df_scenario COL_POIDS_EAU (Floats [53.3%float]).

(** A table read with a padded label and with a column already named
    [Durée opération]. *)
Definition df_lu_exemple : DataFrame :=
  (py " Navire ", Objects [py "Aurore"])
  :: (COL_DUREE_OPERATION, Objects [py "deux heures"])
  :: df_scenario.

Definition df_exemple_calcule : DataFrame :=
  table_calculee (nettoyer_entetes df_lu_exemple) [150%float] [100%float]
    (Spans [Some 2400000000000%Z]) (Spans [Some 3600000000000%Z])
    [5200%float] [5000%float] [45%float].

(** A stand-in for the library in the examples: the reader returns the
    given table, numbers and dates are written as they are (NaN and NaT
    as empty cells), spans as empty cells, and the text of a number or of
    a date is left empty. *)
Definition bibliotheque_exemple (df : DataFrame) : Bibliotheque :=
  {| read_excel := fun _ _ => Ok df;
     excel_of_float := fun x => if is_nan x then XNone else XNum x;
     excel_of_date := from_option XDate XNone;
     excel_of_span := fun _ => XNone;
     str_float := fun _ => [];
     str_datetime := fun _ => [] |}.

(** The scenario table without its [Poids eau (kg)] column, and without
    its [Volume initial] column. *)
Definition df_sans_poids_eau : DataFrame := take 8 df_scenario.

Definition fichier_exemple : path := [py "Excel"; py "releve.xlsx"].
Definition dossier_exemple : path := [py "Data_Analysis"; py "2025-01-31"].

Definition fichier_xls : path := [py "Excel"; py "releve.xls"].

(** A sheet with a text column and one of the three numeric columns. *)
Definition feuille_exemple : worksheet :=
  {| rows :=
       [ [ {| value := XStr (py "Navire (nom)"); number_format := General |};
           {| value := XStr COL_POIDS_NET_CALCULE; number_format := General |} ];
         [ {| value := XStr (py "Aurore 2"); number_format := General |};
           {| value := XNum 144.15%float; number_format := General |} ] ];
     widths := ∅ |}.

Definition resultat_exemple : path :=
  dossier_exemple ++ [py "releve_resultats.xlsx"].

Definition fs_exemple : fs := {[ resultat_exemple := Fichier feuille_exemple ]}.

(** ** Statements about the table computed *)

(** The six assignments as one list, in assignment order. *)
Definition affectations (vf vi : list float) (duree temps : column)
    (ps pe pm : list float) : list (pystr * column) :=
  let vol := volume_charge vf vi in
  let eau := poids_eau vol in
  [(COL_VOL_CHARGE_CALCULE, Floats vol);
   (COL_POIDS_EAU_CALCULE, Floats eau);
   (COL_DUREE_OPERATION, duree);
   (COL_TEMPS_TR, temps);
   (COL_POIDS_NET_CALCULE, Floats (poids_net ps pe pm));
   (COL_POIDS_NET_RECALCULE, Floats (poids_net ps pe eau))].


(** Two rows, the second with no measured water weight. *)
Definition df_eau_manquante : DataFrame :=
  [(COL_DEBUT_PESEE, Dates [Some 0%Z; None]);
   (COL_FIN_PESEE, Dates [Some 3600000000000%Z; Some 7200000000000%Z]);
   (COL_DEBUT_DECH, Dates [Some 600000000000%Z; Some 4200000000000%Z]);
   (COL_FIN_DECH, Dates [Some 3000000000000%Z; Some 6600000000000%Z]);
   (COL_VOL_INIT, Floats [100%float; 20%float]);
   (COL_VOL_FINAL, Floats [150%float; 80%float]);
   (COL_POIDS_ENTREE, Floats [5000%float; 4000%float]);
   (COL_POIDS_SORTIE, Floats [5200%float; 4300%float]);
   (COL_POIDS_EAU, Floats [45%float; nan])].

(** Three rows: the scenario, a row whose product 2.5 * 1.066 lies
    halfway between two hundredths as a decimal text would have it, and
    a row whose volume difference 4.004 is rounded before it is
    multiplied. *)
Definition df_arrondis : DataFrame :=
  [(COL_DEBUT_PESEE, Dates [Some 0%Z; Some 0%Z; Some 0%Z]);
   (COL_FIN_PESEE, Dates [Some 3600000000000%Z; Some 3600000000000%Z;
                          Some 3600000000000%Z]);
   (COL_DEBUT_DECH, Dates [Some 600000000000%Z; Some 600000000000%Z;
                           Some 600000000000%Z]);
   (COL_FIN_DECH, Dates [Some 3000000000000%Z; Some 3000000000000%Z;
                         Some 3000000000000%Z]);
   (COL_VOL_INIT, Floats [100%float; 0%float; 0%float]);
   (COL_VOL_FINAL, Floats [150%float; 2.5%float; 4.004%float]);
   (COL_POIDS_ENTREE, Floats [5000%float; 5000%float; 5000%float]);
   (COL_POIDS_SORTIE, Floats [5200%float; 5003.5%float; 5200%float]);
   (COL_POIDS_EAU, Floats [45%float; 0%float; 45%float])].

(** ** Statements about labels *)

(** A text of whitespace only. *)
Definition blanc (w : pystr) : Prop := Forall (fun c => isspace c = true) w.

(** Table [df1] is table [df2] with whitespace added around its labels. *)
Definition entetes_espacees (df1 df2 : DataFrame) : Prop :=
  Forall2 (fun x y : pystr * column =>
             x.2 = y.2 ∧ ∃ wl wr, blanc wl ∧ blanc wr ∧ x.1 = wl ++ y.1 ++ wr)
          df1 df2.

(** The scenario table with blanks and a tab around two of its labels. *)
Definition df_scenario_espace : DataFrame :=
  <[4 := (py " Volume initial ", Floats [100%float])]>
    (<[8 := (9%N :: COL_POIDS_EAU ++ [32%N; 32%N], Floats [45%float])]>
       df_scenario).

(** ** File systems of the examples *)

(** A file system where [Data_Analysis] is a file, and one where the
    result path of the example is a directory. *)
Definition fs_bloque : fs := {[ [py "Data_Analysis"] := Fichier feuille_exemple ]}.
Definition fs_resultat_dossier : fs := {[ resultat_exemple := Dossier ]}.

(** A file system that holds the input file of the example. *)
Definition fs_entree : fs := {[ fichier_exemple := Fichier feuille_exemple ]}.

(** ** The template and the entry point (lines 209-266) *)

Definition Excel : pystr := Eval vm_compute in py "Excel".
Definition Data_Analysis : pystr := Eval vm_compute in py "Data_Analysis".
Definition modele_import_xlsx : pystr :=
  Eval vm_compute in py "modele_import.xlsx".
Definition point_xlsx : pystr := Eval vm_compute in py ".xlsx".

(** [p.exists()] *)
Definition existe (σ : fs) (p : path) : Prop := p = [] ∨ is_Some (σ !! p).

#[global] Instance existe_dec σ p : Decision (existe σ p).
Proof. unfold existe. apply _. Defined.

(** An entry of directory [d] that [d.glob("*.xlsx")] yields: its name
    ends with [.xlsx] (as on POSIX, where case matters). *)
Definition entree_xlsx (d p : path) : Prop :=
  p ≠ [] ∧ removelast p = d ∧ point_xlsx `suffix_of` name p.

#[global] Instance entree_xlsx_dec d p : Decision (entree_xlsx d p).
Proof. unfold entree_xlsx. apply _. Defined.

(** [any(d.glob("*.xlsx"))] *)
Definition glob_xlsx (σ : fs) (d : path) : Prop :=
  map_Exists (fun p (_ : noeud) => entree_xlsx d p) σ.

(** How a run of [main] ends: the message it prints, or the result it
    opens with [ouvrir_fichier]. *)
Inductive issue :=
| Aucun_fichier_trouve
| Aucun_fichier_selectionne
| Fichier_introuvable (p : path)
| Resultat_ouvert (p : path)
| Erreur_traitement (e : exception).

Section Point_d_entree.
Context `{Bibliotheque}.

(** [pd.DataFrame(columns=COLONNES_MODELE)] *)
Definition table_modele : DataFrame :=
  (fun l => (l, Objects [])) <$> COLONNES_MODELE.

Definition creer_fichier_modele (dossier_excel : path) : M unit := fun σ =>
  let fichier_modele := dossier_excel ++ [modele_import_xlsx] in
  if decide (existe σ fichier_modele) then (σ, Ok tt)
  else to_excel table_modele fichier_modele σ.

(** [cli_selectionner_fichier]; [choix] is what the dialog returns, [None]
    when it is dismissed. *)
Definition cli_selectionner_fichier (cwd : path) (choix : option path)
    : M (option path) :=
  _ ← mkdir_parents (cwd ++ [Excel]);
  mret choix.

(** [main]: [cwd] is [Path.cwd()], [aujourd_hui] is
    [date.today().isoformat()], [input] is [args.input]. *)
Definition main (cwd : path) (aujourd_hui : pystr)
    (input choix : option path) : M issue :=
  let dossier_excel := cwd ++ [Excel] in
  _ ← mkdir_parents dossier_excel;
  source ←
    (match input with
    | None => fun σ =>
        if decide (glob_xlsx σ dossier_excel) then
          (fichier_source ← cli_selectionner_fichier cwd choix;
           match fichier_source with
           | None => mret (inl Aucun_fichier_selectionne : issue + path)
           | Some p => mret (inr p)
           end) σ
        else
          (_ ← creer_fichier_modele dossier_excel;
           mret (inl Aucun_fichier_trouve : issue + path)) σ
    | Some p => fun σ =>
        if decide (existe σ p) then (σ, Ok (inr p))
        else (σ, Ok (inl (Fichier_introuvable p)))
    end : M (issue + path));
  match source with
  | inl fin => mret fin
  | inr fichier_source =>
      let dossier_sortie := cwd ++ [Data_Analysis; aujourd_hui] in
      fun σ =>
        match analyser_dechargement fichier_source dossier_sortie σ with
        | (σ', Ok fichier_resultat) => (σ', Ok (Resultat_ouvert fichier_resultat))
        | (σ', Raise exc) => (σ', Ok (Erreur_traitement exc))
        end
  end.

End Point_d_entree.

(** A working directory for the examples. *)
Definition cwd_exemple : path := [py "home"; py "port"].
Definition date_exemple : pystr := py "2025-01-31".

(** ** Labels and assignment *)

Lemma bind_Ok {A B} (m : result A) (f : A → result B) (b : B) :
  m ≫= f = Ok b → ∃ a, m = Ok a ∧ f a = Ok b.
Proof. destruct m as [a|e]; [eauto | discriminate]. Qed.

Lemma getitem_setitem_eq df l c : getitem (setitem df l c) l = Ok c.
Proof.
  induction df as [|[l0 c0] df IH]; simpl.
  - by rewrite decide_True.
  - destruct (decide (l0 = l)) as [->|Hne]; simpl.
    + by rewrite decide_True.
    + by rewrite decide_False.
Qed.

Lemma getitem_setitem_ne df l l' c :
  l ≠ l' → getitem (setitem df l c) l' = getitem df l'.
Proof.
  intros Hne. induction df as [|[l0 c0] df IH]; simpl.
  - by rewrite decide_False.
  - destruct (decide (l0 = l)) as [->|Hl]; simpl.
    + by rewrite !decide_False.
    + destruct (decide (l0 = l')); auto.
Qed.

Lemma setitem_lookup_ne df l c i l0 c0 :
  df !! i = Some (l0, c0) → l0 ≠ l → setitem df l c !! i = Some (l0, c0).
Proof.
  revert i. induction df as [|[l1 c1] df IH]; intros i Hi Hne; [done|].
  simpl. destruct (decide (l1 = l)) as [->|Hl].
  - destruct i as [|i]; simpl in *; [congruence | done].
  - destruct i as [|i]; simpl in *; [done | by apply IH].
Qed.

(** Distinct labels are told apart by evaluation. *)
Ltac labels_ne := let H := fresh in intros H; vm_compute in H; discriminate H.

(** Reading a label through the assignments already made. *)
Ltac lire :=
  repeat first
    [ rewrite getitem_setitem_eq
    | rewrite getitem_setitem_ne by labels_ne ].

Ltac lire_dans H :=
  repeat first
    [ rewrite getitem_setitem_eq in H
    | rewrite getitem_setitem_ne in H by labels_ne ].

Lemma calculs_complete df vf vi duree temps ps pe pm :
  colonnes_brutes df vf vi duree temps ps pe pm →
  calculs df = Ok (table_calculee df vf vi duree temps ps pe pm).
Proof.
  intros (Hvf & Hvi & (fd & dd & Hfd & Hdd & Hd) & (fp & dp & Hfp & Hdp & Ht)
          & Hps & Hpe & Hpm).
  unfold calculs, table_calculee.
  rewrite Hvf, Hvi. simpl. lire. simpl. lire.
  rewrite Hfd. simpl. lire. rewrite Hdd. simpl. rewrite Hd. simpl. lire.
  rewrite Hfp. simpl. lire. rewrite Hdp. simpl. rewrite Ht. simpl. lire.
  rewrite Hps, Hpe. simpl. rewrite Hpm. simpl. lire.
  rewrite Hps, Hpe. simpl. reflexivity.
Qed.

(** One step through [calculs]: the next raw column read is either
    missing, of a type the formula rejects, or of the expected type. *)
Ltac avancer H df :=
  repeat (progress (cbv zeta in H; lire_dans H; simpl in H));
  lazymatch type of H with
  | getitem df ?l ≫= _ = Ok _ =>
      first
        [ match goal with E : getitem df l = _ |- _ => rewrite E in H end
        | let E := fresh "E" in
          destruct (getitem df l) as [[?|?|?|?]|?] eqn:E ];
      simpl in H; try discriminate H
  end.

Lemma calculs_Ok df df' :
  calculs df = Ok df' →
  ∃ vf vi duree temps ps pe pm,
    colonnes_brutes df vf vi duree temps ps pe pm ∧
    df' = table_calculee df vf vi duree temps ps pe pm.
Proof.
  intros H. unfold calculs in H.
  do 11 avancer H df.
  all: injection H as <-.
  all: do 7 eexists; split; [|reflexivity].
  all: unfold colonnes_brutes; repeat split; eauto 10.
Qed.

(** ** Comparison of floats *)






Lemma poids_net_lookup ps pe w i a :
  poids_net ps pe w !! i = Some a ↔
  ∃ o e x, ps !! i = Some o ∧ pe !! i = Some e ∧ w !! i = Some x ∧
           a = net_ligne (PrimFloat.sub o e) x.
Proof.
  unfold poids_net, net_ligne. rewrite !list_lookup_fmap. split.
  - destruct (zip_with _ _ w !! i) as [d|] eqn:Hd; simpl; [|discriminate].
    intros [= <-]. apply lookup_zip_with_Some in Hd as (t & x & -> & Ht & Hx).
    apply lookup_zip_with_Some in Ht as (o & e & -> & Ho & He).
    by exists o, e, x.
  - intros (o & e & x & Ho & He & Hx & ->).
    assert (zip_with PrimFloat.sub (zip_with PrimFloat.sub ps pe) w !! i
            = Some (PrimFloat.sub (PrimFloat.sub o e) x)) as ->; [|done].
    apply lookup_zip_with_Some. eexists _, _. split; [done|]. split; [|done].
    apply lookup_zip_with_Some. by eexists _, _.
Qed.

(** The two factors as floats: [1 + 6.6 / 100] is the float 1.066,
    [1 - 7 / 100] is the float just below 0.93. *)
Lemma facteur_eau_1_066 : Num.facteur_eau = 1.066%float.
Proof. reflexivity. Qed.

Lemma facteur_net_valeur : Num.facteur_net = 0.92999999999999994%float.
Proof. reflexivity. Qed.

(** ** Rounding to two decimals *)

Lemma demi_pair_proche (n d : Z) :
  (0 < d)%Z →
  (2 * Z.abs (n - Num.demi_pair n d * d) ≤ d)%Z ∧
  ((2 * Z.abs (n - Num.demi_pair n d * d) = d)%Z →
   Z.even (Num.demi_pair n d) = true).
Proof.
  intros Hd. unfold Num.demi_pair. cbv zeta.
  pose proof (Z.div_mod n d ltac:(lia)) as Hdiv.
  pose proof (Z.mod_pos_bound n d Hd) as Hmod.
  destruct (Z.compare_spec (2 * (n mod d)) d) as [Heq|Hlt|Hgt].
  - destruct (Z.even (n / d)) eqn:Hev.
    + split; [nia|]. intros _. exact Hev.
    + split; [nia|]. intros _.
      rewrite Z.add_1_r, Z.even_succ, <- Z.negb_even, Hev. reflexivity.
  - split; [nia|]. intros Habs. exfalso. nia.
  - split; [nia|]. intros Habs. exfalso. nia.
Qed.

Lemma round2_deux_decimales (x : float) : deux_decimales x (Num.round2 x).
Proof.
  unfold deux_decimales, Num.round2.
  destruct (Prim2SF x) as [s|s| |s m e]; try reflexivity.
  cbv zeta. exists (Num.centiemes m e). unfold Num.centiemes.
  destruct e as [|p|p].
  - change (Z.max 0 0) with 0%Z. change (Z.max 0 (- 0)) with 0%Z.
    rewrite Z.pow_0_r. split; [lia|]. split; [lia|reflexivity].
  - rewrite Z.max_r by lia. rewrite (Z.max_l 0 (- Z.pos p)) by lia.
    rewrite Z.pow_0_r. split; [lia|]. split; [lia|reflexivity].
  - rewrite Z.max_l by lia. rewrite (Z.max_r 0 (- Z.neg p)) by lia.
    rewrite Z.pow_0_r, Z.mul_1_r.
    change (- Z.neg p)%Z with (Z.pos p).
    assert (0 < 2 ^ Z.pos p)%Z as Hd by (apply Z.pow_pos_nonneg; lia).
    destruct (demi_pair_proche (100 * Z.pos m) (2 ^ Z.pos p) Hd) as [H1 H2].
    split; [exact H1|]. split; [exact H2|reflexivity].
Qed.

(** At most one number of hundredths is nearest, so [deux_decimales]
    determines its result. *)
Lemma deux_decimales_unique (x r r' : float) :
  deux_decimales x r → deux_decimales x r' → r = r'.
Proof.
  unfold deux_decimales. destruct (Prim2SF x) as [s|s| |s m e];
    try congruence.
  cbv zeta. intros (k & Hk & Hpair & ->) (k' & Hk' & Hpair' & ->).
  assert (k = k') as ->; [|reflexivity].
  assert (0 < 2 ^ Z.max 0 (- e))%Z as Hd by (apply Z.pow_pos_nonneg; lia).
  set (n := (100 * Z.pos m * 2 ^ Z.max 0 e)%Z) in *.
  set (d := (2 ^ Z.max 0 (- e))%Z) in *.
  assert (k' = k ∨ k' = k + 1 ∨ k = k' + 1)%Z as [->|[->| ->]] by nia;
    [reflexivity| |]; exfalso.
  - assert (2 * Z.abs (n - k * d) = d)%Z as E by nia.
    assert (2 * Z.abs (n - (k + 1) * d) = d)%Z as E' by nia.
    specialize (Hpair E). specialize (Hpair' E').
    rewrite Z.add_1_r, Z.even_succ, <- Z.negb_even, Hpair in Hpair'.
    discriminate Hpair'.
  - assert (2 * Z.abs (n - k' * d) = d)%Z as E by nia.
    assert (2 * Z.abs (n - (k' + 1) * d) = d)%Z as E' by nia.
    specialize (Hpair E'). specialize (Hpair' E).
    rewrite Z.add_1_r, Z.even_succ, <- Z.negb_even, Hpair' in Hpair.
    discriminate Hpair.
Qed.

(** ** The derived columns *)

(** C1, as amended: on the row of the end-to-end scenario (volumes 100.0
    and 150.0, weights 5000.0 and 5200.0, measured water 45.0) the
    computation returns a table whose derived columns hold
    volume_loaded = 50.0, water_weight_estimated = 53.3,
    net_weight_measured = 144.15 and net_weight_estimated = 136.43. *)
Theorem scenario_end_to_end :
  ∃ df', calculs df_scenario = Ok df' ∧
    getitem df' COL_VOL_CHARGE_CALCULE = Ok (Floats [50%float]) ∧
    getitem df' COL_POIDS_EAU_CALCULE = Ok (Floats [53.3%float]) ∧
    getitem df' COL_POIDS_NET_CALCULE = Ok (Floats [144.15%float]) ∧
    getitem df' COL_POIDS_NET_RECALCULE = Ok (Floats [136.43%float]).
Proof.
  eexists. split; [vm_compute; reflexivity|].
  repeat split; vm_compute; reflexivity.
Qed.

(** C1, as stated, fails: the scenario does not produce
    net_weight_estimated = 136.73 next to the other three values. *)
Lemma scenario_net_estimated_is_not_136_73 :
  ¬ ∃ df', calculs df_scenario = Ok df' ∧
    getitem df' COL_VOL_CHARGE_CALCULE = Ok (Floats [50%float]) ∧
    getitem df' COL_POIDS_EAU_CALCULE = Ok (Floats [53.3%float]) ∧
    getitem df' COL_POIDS_NET_CALCULE = Ok (Floats [144.15%float]) ∧
    getitem df' COL_POIDS_NET_RECALCULE = Ok (Floats [136.73%float]).
Proof.
  intros (df' & H & _ & _ & _ & Hn).
  assert (calculs df_scenario ≫= (fun d => getitem d COL_POIDS_NET_RECALCULE)
          = Ok (Floats [136.73%float])) as Hc by (rewrite H; exact Hn).
  apply (f_equal (fun r => match r with
                           | Ok (Floats [x]) => PrimFloat.eqb x 136.73%float
                           | _ => true
                           end)) in Hc.
  vm_compute in Hc. discriminate Hc.
Qed.

(** C2: on a table with distinct labels and its raw columns, the
    computation returns, and in every row the estimated water weight is
    round(volume_loaded * 1.066, 2), where volume_loaded is the stored,
    already rounded round(volume_final - volume_initial, 2).  Each of the
    two roundings gives its operand to two decimals: the nearest number
    of hundredths (the even one at a tie), read back as a float. *)
Theorem water_weight_from_rounded_volume df vf vi duree temps ps pe pm :
  NoDup df.*1 →
  colonnes_brutes df vf vi duree temps ps pe pm →
  ∃ df' vol eau,
    calculs df = Ok df' ∧
    getitem df' COL_VOL_CHARGE_CALCULE = Ok (Floats vol) ∧
    getitem df' COL_POIDS_EAU_CALCULE = Ok (Floats eau) ∧
    eau = (fun v => Num.round2 (v * 1.066)%float) <$> vol ∧
    ∀ i a b, vf !! i = Some a → vi !! i = Some b →
      ∃ v w,
        vol !! i = Some v ∧ eau !! i = Some w ∧
        v = Num.round2 (a - b)%float ∧
        w = Num.round2 (Num.round2 (a - b) * 1.066)%float ∧
        deux_decimales (a - b)%float v ∧
        deux_decimales (v * 1.066)%float w.
Proof.
  intros _ Hb. exists (table_calculee df vf vi duree temps ps pe pm).
  exists (volume_charge vf vi), (poids_eau (volume_charge vf vi)).
  split; [by apply calculs_complete|].
  unfold table_calculee. cbv zeta. lire. do 2 (split; [reflexivity|]).
  assert (poids_eau (volume_charge vf vi)
          = (fun v => Num.round2 (v * 1.066)%float) <$> volume_charge vf vi)
    as Heau.
  { unfold poids_eau. rewrite <- list_fmap_compose. reflexivity. }
  split; [exact Heau|]. intros i a b Ha Hb'.
  assert (volume_charge vf vi !! i = Some (Num.round2 (a - b)%float)) as Hv.
  { unfold volume_charge. rewrite list_lookup_fmap.
    assert (zip_with PrimFloat.sub vf vi !! i = Some (a - b)%float) as ->;
      [|done].
    apply lookup_zip_with_Some. by eexists _, _. }
  exists (Num.round2 (a - b)%float),
         (Num.round2 (Num.round2 (a - b) * 1.066)%float).
  split; [exact Hv|].
  split; [rewrite Heau, list_lookup_fmap, Hv; reflexivity|].
  do 2 (split; [reflexivity|]).
  split; apply round2_deux_decimales.
Qed.

(** The order of the roundings shows: a volume difference of 4.004 gives
    4.26, where rounding only at the end would give 4.27. *)
Example rounding_order_matters :
  Num.round2 (Num.round2 (4.004 - 0) * 1.066)%float = 4.26%float ∧
  Num.round2 ((4.004 - 0) * 1.066)%float = 4.27%float.
Proof. split; vm_compute; reflexivity. Qed.

Lemma colonnes_brutes_scenario :
  colonnes_brutes df_scenario [150%float] [100%float]
    (Spans [Some 2400000000000%Z]) (Spans [Some 3600000000000%Z])
    [5200%float] [5000%float] [45%float].
Proof.
  unfold colonnes_brutes.
  repeat split; try reflexivity; eexists _, _; repeat split; reflexivity.
Defined.

Lemma NoDup_df_arrondis : NoDup df_arrondis.*1.
Proof. apply (bool_decide_unpack _). vm_compute. exact I. Defined.

Lemma colonnes_brutes_arrondis :
  colonnes_brutes df_arrondis
    [150%float; 2.5%float; 4.004%float] [100%float; 0%float; 0%float]
    (Spans [Some 2400000000000%Z; Some 2400000000000%Z; Some 2400000000000%Z])
    (Spans [Some 3600000000000%Z; Some 3600000000000%Z; Some 3600000000000%Z])
    [5200%float; 5003.5%float; 5200%float]
    [5000%float; 5000%float; 5000%float]
    [45%float; 0%float; 45%float].
Proof.
  unfold colonnes_brutes.
  repeat split; try reflexivity; eexists _, _; repeat split; reflexivity.
Defined.

Lemma water_weight_from_rounded_volume_witness :
  ∃ df' vol eau,
    calculs df_arrondis = Ok df' ∧
    getitem df' COL_VOL_CHARGE_CALCULE = Ok (Floats vol) ∧
    getitem df' COL_POIDS_EAU_CALCULE = Ok (Floats eau) ∧
    eau = (fun v => Num.round2 (v * 1.066)%float) <$> vol ∧
    (vol !! 0 = Some 50%float ∧ eau !! 0 = Some 53.3%float) ∧
    (vol !! 1 = Some 2.5%float ∧ eau !! 1 = Some 2.67%float) ∧
    (vol !! 2 = Some 4%float ∧ eau !! 2 = Some 4.26%float) ∧
    deux_decimales (50 * 1.066)%float 53.3%float ∧
    deux_decimales (2.5 * 1.066)%float 2.67%float ∧
    deux_decimales (4.004 - 0)%float 4%float.
Proof.
  destruct (water_weight_from_rounded_volume df_arrondis _ _ _ _ _ _ _
              NoDup_df_arrondis colonnes_brutes_arrondis)
    as (df' & vol & eau & Hc & Hvol & Heau & Heq & Hrows).
  exists df', vol, eau. do 4 (split; [assumption|]).
  destruct (Hrows 0 150%float 100%float eq_refl eq_refl)
    as (v0 & w0 & Hv0 & Hw0 & -> & -> & _ & Hd0).
  destruct (Hrows 1 2.5%float 0%float eq_refl eq_refl)
    as (v1 & w1 & Hv1 & Hw1 & -> & -> & _ & Hd1).
  destruct (Hrows 2 4.004%float 0%float eq_refl eq_refl)
    as (v2 & w2 & Hv2 & Hw2 & -> & -> & Hd2 & _).
  repeat split.
  - refine (eq_trans Hv0 _). vm_compute. reflexivity.
  - refine (eq_trans Hw0 _). vm_compute. reflexivity.
  - refine (eq_trans Hv1 _). vm_compute. reflexivity.
  - refine (eq_trans Hw1 _). vm_compute. reflexivity.
  - refine (eq_trans Hv2 _). vm_compute. reflexivity.
  - refine (eq_trans Hw2 _). vm_compute. reflexivity.
  - exact Hd0.
  - exact Hd1.
  - exact Hd2.
Defined.

(** The three rows of [df_arrondis]: 50.0 and 53.3; 2.5 and 2.67, the
    product 2.665 being the float just above the halfway point; 4.0 and
    4.26, the volume 4.004 being rounded before it is multiplied. *)
Example water_weight_on_three_rows :
  calculs df_arrondis ≫= (fun df' => getitem df' COL_VOL_CHARGE_CALCULE)
  = Ok (Floats [50%float; 2.5%float; 4%float]) ∧
  calculs df_arrondis ≫= (fun df' => getitem df' COL_POIDS_EAU_CALCULE)
  = Ok (Floats [53.3%float; 2.67%float; 4.26%float]).
Proof. split; vm_compute; reflexivity. Qed.

(** Rounding to two decimals on single values: the nearest hundredth,
    not the value itself, with the tie 0.125 going to the even 0.12. *)
Example round2_values :
  Num.round2 53.300000000000004%float = 53.3%float ∧
  Num.round2 (2.5 * 1.066)%float = 2.67%float ∧
  Num.round2 0.015%float = 0.01%float ∧
  Num.round2 0.125%float = 0.12%float ∧
  Num.round2 0.375%float = 0.38%float ∧
  Num.round2 (-0.125)%float = (-0.12)%float ∧
  Num.round2 1e307%float = 1e307%float.
Proof. repeat split; vm_compute; reflexivity. Qed.




(** On that row both net weights are 136.43. *)
Example net_weights_eau_egale :
  ∃ df', calculs df_eau_egale = Ok df' ∧
    getitem df' COL_POIDS_EAU_CALCULE = Ok (Floats [53.3%float]) ∧
    getitem df' COL_POIDS_NET_CALCULE = Ok (Floats [136.43%float]) ∧
    getitem df' COL_POIDS_NET_RECALCULE = Ok (Floats [136.43%float]).
Proof.
  eexists. split; [vm_compute; reflexivity|].
  repeat split; vm_compute; reflexivity.
Qed.

(** C10: when the computation returns, every column of the table read
    whose trimmed label is not one of the six derived labels is in the
    result at its place, label trimmed, values untouched; and under each
    of the six derived labels the result holds the computed column,
    whatever the table read held under that label. *)
Theorem columns_kept_or_overwritten df_lu df' :
  calculs (nettoyer_entetes df_lu) = Ok df' →
  (∀ i l c, df_lu !! i = Some (l, c) → strip l ∉ COLONNES_CALCULEES →
            df' !! i = Some (strip l, c)) ∧
  ∃ vf vi duree temps ps pe pm,
    colonnes_brutes (nettoyer_entetes df_lu) vf vi duree temps ps pe pm ∧
    getitem df' COL_VOL_CHARGE_CALCULE = Ok (Floats (volume_charge vf vi)) ∧
    getitem df' COL_POIDS_EAU_CALCULE
      = Ok (Floats (poids_eau (volume_charge vf vi))) ∧
    getitem df' COL_DUREE_OPERATION = Ok duree ∧
    getitem df' COL_TEMPS_TR = Ok temps ∧
    getitem df' COL_POIDS_NET_CALCULE = Ok (Floats (poids_net ps pe pm)) ∧
    getitem df' COL_POIDS_NET_RECALCULE
      = Ok (Floats (poids_net ps pe (poids_eau (volume_charge vf vi)))).
Proof.
  intros H.
  apply calculs_Ok in H as (vf & vi & duree & temps & ps & pe & pm & Hb & ->).
  split.
  - intros i l c Hi Hl.
    assert (nettoyer_entetes df_lu !! i = Some (strip l, c)) as Hn.
    { unfold nettoyer_entetes. rewrite list_lookup_fmap, Hi. reflexivity. }
    unfold COLONNES_CALCULEES in Hl.
    rewrite !not_elem_of_cons in Hl.
    destruct Hl as (H1 & H2 & H3 & H4 & H5 & H6 & _).
    unfold table_calculee. cbv zeta.
    repeat (apply setitem_lookup_ne; [|assumption]). exact Hn.
  - exists vf, vi, duree, temps, ps, pe, pm. split; [exact Hb|].
    unfold table_calculee. cbv zeta. lire. repeat split.
Qed.

Lemma columns_kept_or_overwritten_witness :
  (∀ i l c, df_lu_exemple !! i = Some (l, c) →
            strip l ∉ COLONNES_CALCULEES →
            df_exemple_calcule !! i = Some (strip l, c)) ∧
  ∃ vf vi duree temps ps pe pm,
    colonnes_brutes (nettoyer_entetes df_lu_exemple) vf vi duree temps ps pe pm ∧
    getitem df_exemple_calcule COL_VOL_CHARGE_CALCULE
      = Ok (Floats (volume_charge vf vi)) ∧
    getitem df_exemple_calcule COL_POIDS_EAU_CALCULE
      = Ok (Floats (poids_eau (volume_charge vf vi))) ∧
    getitem df_exemple_calcule COL_DUREE_OPERATION = Ok duree ∧
    getitem df_exemple_calcule COL_TEMPS_TR = Ok temps ∧
    getitem df_exemple_calcule COL_POIDS_NET_CALCULE
      = Ok (Floats (poids_net ps pe pm)) ∧
    getitem df_exemple_calcule COL_POIDS_NET_RECALCULE
      = Ok (Floats (poids_net ps pe (poids_eau (volume_charge vf vi)))).
Proof.
  apply (columns_kept_or_overwritten df_lu_exemple df_exemple_calcule).
  vm_compute. reflexivity.
Defined.

(** In that table the padded label is trimmed and its column kept, and
    the text under [Durée opération] gives way to the computed span. *)
Example exemple_navire_et_duree :
  df_exemple_calcule !! 0 = Some (py "Navire", Objects [py "Aurore"]) ∧
  getitem (nettoyer_entetes df_lu_exemple) COL_DUREE_OPERATION
    = Ok (Objects [py "deux heures"]) ∧
  df_exemple_calcule !! 1
    = Some (COL_DUREE_OPERATION, Spans [Some 2400000000000%Z]).
Proof. repeat split; vm_compute; reflexivity. Qed.

(** ** The numeric format pass *)

(** The constants of the passes, as the texts the script writes. *)
Lemma num_format_literal : num_format = py "#,##0.00".
Proof. vm_compute. reflexivity. Qed.

Lemma General_literal : General = py "General".
Proof. vm_compute. reflexivity. Qed.

Lemma format_datetime_literal : format_datetime = py "YYYY-MM-DD HH:MM:SS".
Proof. vm_compute. reflexivity. Qed.

Lemma format_timedelta_literal : format_timedelta = py "0".
Proof. vm_compute. reflexivity. Qed.

Lemma NUMERIC_COLUMNS_TO_FORMAT_literal :
  NUMERIC_COLUMNS_TO_FORMAT
  = [py "Poids eau Calculé (kg)"; py "Poids net Calculé (kg)";
     py "Poids net Recalculé (kg)"].
Proof. vm_compute. reflexivity. Qed.

Lemma lookup_pad (ligne : list xcell) n j :
  default cellule_vide ((ligne ++ replicate n cellule_vide) !! j)
  = default cellule_vide (ligne !! j).
Proof.
  destruct (decide (j < length ligne)) as [Hlt|Hge].
  - by rewrite lookup_app_l.
  - rewrite lookup_app_r, (lookup_ge_None_2 ligne) by lia. simpl.
    destruct (replicate n cellule_vide !! (j - length ligne)) eqn:E; [|done].
    apply lookup_replicate in E as [-> _]. done.
Qed.

Lemma set_number_format_lookup fmt c (ligne : list xcell) j :
  default cellule_vide (set_number_format fmt c ligne !! j)
  = if decide (j = c)
    then avec_format fmt (default cellule_vide (ligne !! c))
    else default cellule_vide (ligne !! j).
Proof.
  unfold set_number_format.
  set (pad := ligne ++ replicate (S c - length ligne) cellule_vide).
  destruct (decide (j = c)) as [->|Hne].
  - rewrite list_lookup_alter_eq.
    assert (c < length pad) as Hlen.
    { unfold pad. rewrite length_app, length_replicate. lia. }
    destruct (lookup_lt_is_Some_2 pad c Hlen) as [x Hx].
    rewrite Hx. simpl. f_equal.
    pose proof (lookup_pad ligne (S c - length ligne) c) as Hp.
    fold pad in Hp. rewrite Hx in Hp. exact Hp.
  - rewrite list_lookup_alter_ne by done. apply lookup_pad.
Qed.

Lemma formater_colonne_length idx rs :
  length (formater_colonne idx rs) = length rs.
Proof. destruct rs; simpl; [done|]. by rewrite length_fmap. Qed.

Lemma formater_colonne_cellule idx rs r c :
  cellule (formater_colonne idx rs) r c
  = if decide (1 ≤ r < length rs ∧ c = idx - 1)
    then avec_format num_format (cellule rs r c)
    else cellule rs r c.
Proof.
  unfold cellule. destruct rs as [|entete donnees].
  { case_decide as Hd; [simpl in Hd; lia | done]. }
  destruct r as [|r].
  { case_decide as Hd; [lia | done]. }
  cbn [formater_colonne length]. rewrite !lookup_cons, list_lookup_fmap.
  destruct (donnees !! r) as [ligne|] eqn:E; simpl.
  - rewrite set_number_format_lookup.
    apply lookup_lt_Some in E.
    destruct (decide (c = idx - 1)) as [->|Hne];
      case_decide as Hd; try done; lia.
  - apply lookup_ge_None_1 in E. case_decide as Hd; [lia | done].
Qed.

Lemma col_index_snoc ligne x :
  col_index (ligne ++ [x])
  = match value x with
    | XStr s => <[s := S (length ligne)]> (col_index ligne)
    | _ => col_index ligne
    end.
Proof.
  unfold col_index. rewrite imap_app, foldl_app. simpl.
  rewrite Nat.add_0_r. reflexivity.
Qed.

(** The index maps a text to the place, counted from 1, of the last cell
    of the row that holds it. *)
Lemma col_index_spec ligne s n :
  col_index ligne !! s = Some n ↔
  ∃ c, n = S c ∧ value <$> ligne !! c = Some (XStr s) ∧
       ∀ c', c < c' → value <$> ligne !! c' ≠ Some (XStr s).
Proof.
  revert n. induction ligne as [|x ligne IH] using rev_ind; intros n.
  { unfold col_index. simpl. rewrite lookup_empty. split; [done|].
    intros (c & _ & Hc & _). by destruct c. }
  rewrite col_index_snoc.
  assert (∀ c, c < length ligne → (ligne ++ [x]) !! c = ligne !! c) as Hin.
  { intros c Hc. by rewrite lookup_app_l. }
  assert ((ligne ++ [x]) !! length ligne = Some x) as Hlast.
  { rewrite lookup_app_r by lia. by rewrite Nat.sub_diag. }
  assert (∀ c, length ligne < c → (ligne ++ [x]) !! c = None) as Hout.
  { intros c Hc. apply lookup_ge_None_2. rewrite length_app. simpl. lia. }
  assert (value x ≠ XStr s →
          col_index ligne !! s = Some n ↔
          ∃ c, n = S c ∧ value <$> (ligne ++ [x]) !! c = Some (XStr s) ∧
               ∀ c', c < c' → value <$> (ligne ++ [x]) !! c' ≠ Some (XStr s))
    as Hautre.
  { intros Hx. rewrite IH. split.
    - intros (c & -> & Hc & Hmax). exists c. split; [done|].
      assert (c < length ligne) as Hlt.
      { apply lookup_lt_is_Some. destruct (ligne !! c); [eauto|done]. }
      split; [by rewrite Hin|]. intros c' Hc'.
      destruct (Nat.lt_total c' (length ligne)) as [?|[->|?]].
      + rewrite Hin by done. by apply Hmax.
      + rewrite Hlast. simpl. congruence.
      + by rewrite Hout.
    - intros (c & -> & Hc & Hmax). exists c. split; [done|].
      destruct (Nat.lt_total c (length ligne)) as [Hlt|[->|Hgt]].
      + split; [by rewrite <- Hin|]. intros c' Hc' Hv.
        assert (c' < length ligne) as Hlt'.
        { apply lookup_lt_is_Some. destruct (ligne !! c'); [eauto|done]. }
        apply (Hmax c' Hc'). by rewrite Hin.
      + rewrite Hlast in Hc. simpl in Hc. congruence.
      + by rewrite Hout in Hc. }
  destruct (value x) as [|s'|f|t] eqn:Ex; try (apply Hautre; congruence).
  destruct (decide (s' = s)) as [->|Hne]; [|rewrite lookup_insert_ne by done;
                                            apply Hautre; congruence].
  rewrite lookup_insert_eq. split.
  - intros [= <-]. exists (length ligne). split; [done|].
    rewrite Hlast. simpl. rewrite Ex. split; [done|].
    intros c' Hc'. by rewrite Hout.
  - intros (c & -> & Hc & Hmax).
    destruct (Nat.lt_total c (length ligne)) as [Hlt|[->|Hgt]]; [|done|].
    + exfalso. apply (Hmax (length ligne) Hlt). rewrite Hlast. simpl.
      by rewrite Ex.
    + by rewrite Hout in Hc.
Qed.

Lemma col_index_positive ligne s n : col_index ligne !! s = Some n → 0 < n.
Proof. intros (c & -> & _)%col_index_spec. lia. Qed.

Lemma entete_cell ws c s :
  value <$> default [] (rows ws !! 0) !! c = Some (XStr s)
  ↔ value (cell_at ws 0 c) = XStr s.
Proof.
  unfold cell_at, cellule. destruct (rows ws !! 0) as [h|]; simpl.
  - destruct (h !! c); simpl; split; intros E; try discriminate E; congruence.
  - split; intros E; discriminate E.
Qed.

Lemma col_index_colonne_nommee ws nom n :
  col_index (default [] (rows ws !! 0)) !! nom = Some n
  ↔ ∃ c, n = S c ∧ colonne_nommee ws nom c.
Proof.
  rewrite col_index_spec. unfold colonne_nommee.
  split; intros (c & -> & Hc & Hmax); exists c; split; try done; split.
  - by apply entete_cell.
  - intros c' Hc' Hv. apply (Hmax c' Hc'). by apply entete_cell.
  - by apply entete_cell.
  - intros c' Hc' Hv. apply (Hmax c' Hc'). by apply entete_cell.
Qed.

(** The loop over the column names, for the index of a row [h]. *)
Lemma format_fold h noms ws :
  let ws' :=
    foldl (fun ws col_name =>
             match col_index h !! col_name with
             | None => ws
             | Some idx =>
                 {| rows := formater_colonne idx (rows ws);
                    widths := widths ws |}
             end) ws noms in
  widths ws' = widths ws ∧ max_row ws' = max_row ws ∧
  ∀ r c,
    cell_at ws' r c
    = if decide (1 ≤ r < max_row ws ∧
                 Exists (fun nom => col_index h !! nom = Some (S c)) noms)
      then avec_format num_format (cell_at ws r c)
      else cell_at ws r c.
Proof.
  revert ws. induction noms as [|nom noms IH]; intros ws; cbn [foldl].
  { do 2 (split; [done|]). intros r c.
    case_decide as Hd; [|done]. destruct Hd as [_ Hd]. by apply Exists_nil in Hd. }
  set (ws1 := match col_index h !! nom with
              | Some idx => {| rows := formater_colonne idx (rows ws);
                               widths := widths ws |}
              | None => ws
              end).
  destruct (IH ws1) as (Hw & Hm & Hc). clear IH.
  assert (widths ws1 = widths ws ∧ max_row ws1 = max_row ws ∧
          ∀ r c, cell_at ws1 r c
                 = if decide (1 ≤ r < max_row ws ∧
                              col_index h !! nom = Some (S c))
                   then avec_format num_format (cell_at ws r c)
                   else cell_at ws r c) as (Hw1 & Hm1 & Hc1).
  { subst ws1. destruct (col_index h !! nom) as [idx|] eqn:E.
    - pose proof (col_index_positive _ _ _ E) as Hpos.
      unfold max_row, cell_at. simpl. rewrite formater_colonne_length.
      do 2 (split; [done|]). intros r c. rewrite formater_colonne_cellule.
      repeat case_decide; try done; exfalso.
      + destruct_and!. assert (idx = S c) by lia. naive_solver.
      + destruct_and!. assert (idx = S c) by congruence. naive_solver lia.
    - do 2 (split; [done|]). intros r c. case_decide; [naive_solver|done]. }
  rewrite Hw, Hm, Hw1, Hm1. do 2 (split; [done|]). intros r c.
  rewrite Hc, Hc1, Hm1.
  repeat case_decide; try done; exfalso;
    rewrite Exists_cons in *; naive_solver.
Qed.

Lemma format_numerique_feuille_spec ws :
  widths (format_numerique_feuille ws) = widths ws ∧
  max_row (format_numerique_feuille ws) = max_row ws ∧
  ∀ r c,
    cell_at (format_numerique_feuille ws) r c
    = if decide (1 ≤ r < max_row ws ∧
                 Exists (fun nom => col_index (default [] (rows ws !! 0)) !! nom
                                    = Some (S c))
                        NUMERIC_COLUMNS_TO_FORMAT)
      then avec_format num_format (cell_at ws r c)
      else cell_at ws r c.
Proof. apply format_fold. Qed.

(** C7: on a workbook file the format pass always succeeds and saves the
    sheet with the same values and widths; the cell of every row below
    the first, in a column that row 1 names with one of
    [Poids eau Calculé (kg)], [Poids net Calculé (kg)],
    [Poids net Recalculé (kg)], gets the format [#,##0.00] (thousands
    separated by a comma, two decimals); every other cell keeps its
    format.  A name that row 1 does not hold changes nothing and raises
    nothing. *)
Theorem numeric_format_pass (σ : fs) (p : path) (ws : worksheet) :
  σ !! p = Some (Fichier ws) →
  ∃ ws',
    appliquer_format_numerique p σ = (<[p := Fichier ws']> σ, Ok tt) ∧
    widths ws' = widths ws ∧
    ∀ r c,
      value (cell_at ws' r c) = value (cell_at ws r c) ∧
      (1 ≤ r < length (rows ws) →
       (∃ nom, nom ∈ [py "Poids eau Calculé (kg)";
                      py "Poids net Calculé (kg)";
                      py "Poids net Recalculé (kg)"] ∧
               colonne_nommee ws nom c) →
       number_format (cell_at ws' r c) = py "#,##0.00") ∧
      (r = 0 ∨ length (rows ws) ≤ r ∨
       (∀ nom, nom ∈ [py "Poids eau Calculé (kg)";
                      py "Poids net Calculé (kg)";
                      py "Poids net Recalculé (kg)"] →
               ¬ colonne_nommee ws nom c) →
       number_format (cell_at ws' r c) = number_format (cell_at ws r c)).
Proof.
  intros Hp. exists (format_numerique_feuille ws).
  destruct (format_numerique_feuille_spec ws) as (Hw & _ & Hc).
  split.
  { unfold appliquer_format_numerique, mbind, M_bind, load_workbook, save.
    rewrite Hp. simpl. rewrite Hp. reflexivity. }
  split; [exact Hw|]. intros r c.
  rewrite <- NUMERIC_COLUMNS_TO_FORMAT_literal, <- num_format_literal.
  fold (max_row ws). rewrite Hc.
  case_decide as Hd.
  - split; [reflexivity|]. split; [reflexivity|].
    destruct Hd as [Hr Hex]. intros [->|[Hge|Hno]]; [lia|lia|].
    exfalso. apply Exists_exists in Hex as (nom & Hnom & Hidx).
    apply (Hno nom Hnom).
    apply col_index_colonne_nommee in Hidx as (c0 & [= <-] & Hcn). exact Hcn.
  - split; [reflexivity|]. split; [|reflexivity].
    intros Hr (nom & Hnom & Hcn). exfalso. apply Hd. split; [exact Hr|].
    apply Exists_exists. exists nom. split; [exact Hnom|].
    apply col_index_colonne_nommee. eauto.
Qed.

(** ** The column width pass *)

Section Largeurs_preuves.
Context `{Bibliotheque}.

Lemma max_length_max_list col : max_length col = max_list (longueur <$> col).
Proof.
  unfold max_length.
  assert (∀ a, foldl (fun m cell => m `max` len (valeur_texte (value cell))) a col
               = a `max` max_list (longueur <$> col)) as Hgen.
  { induction col as [|x col IH]; intros a; cbn; [lia|].
    rewrite IH. unfold longueur. lia. }
  rewrite Hgen. lia.
Qed.

Lemma colonne_lookup ws j r :
  r < max_row ws → colonne ws j !! r = Some (cell_at ws r j).
Proof.
  unfold max_row, colonne, cell_at, cellule. intros Hr.
  rewrite list_lookup_fmap.
  destruct (lookup_lt_is_Some_2 (rows ws) r Hr) as [ligne ->]. done.
Qed.

Lemma colonne_length ws j : length (colonne ws j) = max_row ws.
Proof. unfold colonne, max_row. by rewrite length_fmap. Qed.

Lemma largeur_fold js ws :
  let ws' :=
    foldl (fun ws j =>
             {| rows := rows ws;
                widths := <[j := max_length (colonne ws j) + 2]> (widths ws) |})
          ws js in
  rows ws' = rows ws ∧
  ∀ j, widths ws' !! j
       = if decide (j ∈ js) then Some (max_length (colonne ws j) + 2)
         else widths ws !! j.
Proof.
  revert ws. induction js as [|j0 js IH]; intros ws; cbn [foldl].
  { split; [done|]. intros j. case_decide as Hd; [|done]. by apply elem_of_nil in Hd. }
  set (ws1 := {| rows := rows ws;
                 widths := <[j0 := max_length (colonne ws j0) + 2]> (widths ws) |}).
  destruct (IH ws1) as (Hr & Hw). clear IH.
  rewrite Hr. split; [done|]. intros j. rewrite Hw.
  assert (colonne ws1 j = colonne ws j) as -> by done.
  destruct (decide (j = j0)) as [->|Hne].
  - rewrite (decide_True (P := j0 ∈ j0 :: js)) by apply list_elem_of_here.
    case_decide; [done|]. simpl. by rewrite lookup_insert_eq.
  - simpl. rewrite lookup_insert_ne by done.
    repeat case_decide; try done; exfalso;
      rewrite elem_of_cons in *; naive_solver.
Qed.

Lemma largeur_feuille_spec ws :
  rows (largeur_feuille ws) = rows ws ∧
  ∀ j, widths (largeur_feuille ws) !! j
       = if decide (j < max_column ws)
         then Some (max_list (longueur <$> colonne ws j) + 2)
         else widths ws !! j.
Proof.
  destruct (largeur_fold (seq 0 (max_column ws)) ws) as (Hr & Hw).
  split; [exact Hr|]. intros j. unfold largeur_feuille. rewrite Hw.
  rewrite max_length_max_list.
  repeat case_decide; try done; exfalso;
    rewrite elem_of_seq in *; lia.
Qed.

Lemma max_column_rows ws j : j < max_column ws → 0 < max_row ws.
Proof.
  unfold max_column, max_row. destruct (rows ws); simpl; lia.
Qed.

Lemma max_column_spec ws j :
  j < max_column ws ↔ ∃ ligne, ligne ∈ rows ws ∧ j < length ligne.
Proof.
  unfold max_column. induction (rows ws) as [|l rs IH];
    [|rewrite fmap_cons; simpl; change (id (length l)) with (length l)].
  - split; [simpl; lia|]. intros (ligne & Hin & _). by apply elem_of_nil in Hin.
  - split.
    + intros Hj. destruct (decide (j < length l)) as [Hl|Hl].
      * exists l. split; [apply list_elem_of_here|done].
      * destruct IH as [IH _]. destruct IH as (ligne & Hin & Hlt); [lia|].
        exists ligne. split; [by apply list_elem_of_further|done].
    + intros (ligne & Hin & Hlt). apply elem_of_cons in Hin as [->|Hin].
      * lia.
      * destruct IH as [_ IH]. specialize (IH (ex_intro _ ligne (conj Hin Hlt))).
        lia.
Qed.

Lemma longueur_cas (x : xcell) :
  longueur x
  = match value x with
    | XNone => 0
    | XStr s => length s
    | XNum x => length (str_float x)
    | XDate t => length (str_datetime t)
    end.
Proof. unfold longueur, len. by destruct (value x). Qed.

(** C8: on a workbook file the width pass succeeds and saves the sheet
    with the same cells.  Every column of the sheet, that is every index
    some row reaches, gets the width max(number of characters of the
    text of each of its cells, header included) + 2, where an empty cell
    counts for 0, a text for its characters, and a number or a date for
    the characters of its [str]; the widths of the other indices are
    left as they were.  In particular a column whose header is a text
    of 12 characters and whose other cells have at most 8 gets width
    14. *)
Theorem column_width_pass (σ : fs) (p : path) (ws : worksheet) :
  σ !! p = Some (Fichier ws) →
  let car := fun x : xcell =>
    match value x with
    | XNone => 0
    | XStr s => length s
    | XNum x => length (str_float x)
    | XDate t => length (str_datetime t)
    end in
  ∃ ws',
    ajuster_largeur_colonnes p σ = (<[p := Fichier ws']> σ, Ok tt) ∧
    rows ws' = rows ws ∧
    (∀ j, (∃ ligne, ligne ∈ rows ws ∧ j < length ligne) →
      widths ws' !! j
        = Some (max_list ((fun r => car (cell_at ws r j))
                          <$> seq 0 (length (rows ws))) + 2) ∧
      (∀ h, value (cell_at ws 0 j) = XStr h → length h = 12 →
            (∀ r, 1 ≤ r → car (cell_at ws r j) ≤ 8) →
            widths ws' !! j = Some 14)) ∧
    (∀ j, (∀ ligne, ligne ∈ rows ws → length ligne ≤ j) →
          widths ws' !! j = widths ws !! j).
Proof.
  intros Hp car. exists (largeur_feuille ws).
  destruct (largeur_feuille_spec ws) as (Hr & Hw).
  split.
  { unfold ajuster_largeur_colonnes, mbind, M_bind, load_workbook, save.
    rewrite Hp. simpl. rewrite Hp. reflexivity. }
  split; [exact Hr|]. split.
  - intros j Hj%max_column_spec.
    assert (longueur <$> colonne ws j
            = (fun r => car (cell_at ws r j)) <$> seq 0 (length (rows ws)))
      as Hcol.
    { apply list_eq. intros r. rewrite !list_lookup_fmap.
      fold (max_row ws).
      destruct (decide (r < max_row ws)) as [Hlt|Hge].
      - rewrite colonne_lookup, lookup_seq_lt by done. simpl.
        by rewrite longueur_cas.
      - rewrite (lookup_ge_None_2 (colonne ws j)), lookup_seq_ge
          by (rewrite ?colonne_length; lia). reflexivity. }
    rewrite Hw, decide_True, Hcol by done. split; [reflexivity|].
    intros h Hh H12 H8. f_equal.
    pose proof (max_column_rows ws j Hj) as Hrows. unfold max_row in Hrows.
    set (ns := (fun r => car (cell_at ws r j)) <$> seq 0 (length (rows ws))).
    assert (12 ∈ ns) as Hin.
    { apply list_elem_of_fmap. exists 0. split.
      - unfold car. by rewrite Hh, H12.
      - apply elem_of_seq. lia. }
    apply max_list_elem_of_le in Hin.
    assert (max_list ns ≤ 12) as Hle.
    { assert (ns ≠ []) as Hne.
      { intros Hnil. rewrite Hnil in Hin. simpl in Hin. lia. }
      apply max_list_elem_of in Hne.
      apply list_elem_of_fmap in Hne as (r & -> & _).
      destruct r as [|r].
      - unfold car. rewrite Hh, H12. lia.
      - specialize (H8 (S r)). lia. }
    lia.
  - intros j Hj. rewrite Hw, decide_False; [done|].
    intros (ligne & Hin & Hlt)%max_column_spec. specialize (Hj ligne Hin). lia.
Qed.

End Largeurs_preuves.

(** ** Export *)

Lemma avec_dossiers_lookup σ p q :
  avec_dossiers σ p !! q
  = if decide (q ∈ ancetres p) then Some Dossier else σ !! q.
Proof.
  unfold avec_dossiers. induction (ancetres p) as [|a l IH]; cbn [foldr].
  { case_decide as Hd; [by apply elem_of_nil in Hd | done]. }
  destruct (decide (a = q)) as [->|Hne].
  - rewrite lookup_insert_eq. rewrite decide_True by apply list_elem_of_here. done.
  - rewrite lookup_insert_ne, IH by done.
    destruct (decide (q ∈ l)) as [Hin|Hnin].
    + rewrite decide_True by (by apply list_elem_of_further). done.
    + rewrite decide_False; [done|].
      intros [?|?]%elem_of_cons; [congruence|done].
Qed.

Lemma ancetres_length p q : q ∈ ancetres p → 0 < length q ≤ length p.
Proof.
  unfold ancetres. intros (n & -> & Hn)%list_elem_of_fmap.
  apply elem_of_seq in Hn. rewrite length_take. lia.
Qed.

Lemma ancetres_self p : p ≠ [] → p ∈ ancetres p.
Proof.
  intros Hp. unfold ancetres. apply list_elem_of_fmap. exists (length p).
  split; [by rewrite firstn_all|]. apply elem_of_seq.
  destruct p; [done|simpl; lia].
Qed.

Lemma snoc_not_ancetre (p : path) x : p ++ [x] ∉ ancetres p.
Proof.
  intros Hin%ancetres_length. rewrite length_app in Hin. simpl in Hin. lia.
Qed.

Lemma mkdir_parents_ok p σ :
  (∀ q, q ∈ ancetres p → ¬ est_fichier σ q) →
  mkdir_parents p σ = (avec_dossiers σ p, Ok tt).
Proof.
  intros Hno. unfold mkdir_parents.
  destruct (list_find (est_fichier σ) (ancetres p)) as [[i q]|] eqn:E; [|done].
  apply list_find_Some in E as (Hi & Hq & _).
  destruct (Hno q); [|done]. by eapply list_elem_of_lookup_2.
Qed.

Section Export_preuves.
Context `{Bibliotheque}.

Lemma exporter_ok (df : DataFrame) (f d : path) (σ : fs) :
  (∀ q, q ∈ ancetres d → ¬ est_fichier σ q) →
  σ !! fichier_resultat f d ≠ Some Dossier →
  exporter df f d σ
  = (<[fichier_resultat f d := Fichier (feuille_finale df)]> (avec_dossiers σ d),
     Ok (fichier_resultat f d)).
Proof.
  intros Hno Hnd. unfold exporter, fichier_resultat in *.
  set (p := d ++ [stem f ++ resultats_xlsx]) in *.
  unfold mbind at 1, M_bind. rewrite mkdir_parents_ok by done.
  assert (avec_dossiers σ d !! p = σ !! p) as Hp.
  { rewrite avec_dossiers_lookup, decide_False; [done|]. apply snoc_not_ancetre. }
  assert (est_dossier (avec_dossiers σ d) (removelast p)) as Hpar.
  { unfold p. rewrite removelast_last. unfold est_dossier.
    destruct (decide (d = [])) as [->|Hd]; [by left|right].
    rewrite avec_dossiers_lookup, decide_True; [done|]. by apply ancetres_self. }
  unfold mbind at 1, M_bind, to_excel, save. rewrite Hp.
  assert (∀ σ1 ws,
    (appliquer_format_numerique p ≫= (fun _ =>
       ajuster_largeur_colonnes p ≫= (fun _ => mret p)))
      (<[p := Fichier ws]> σ1)
    = (<[p := Fichier (largeur_feuille (format_numerique_feuille ws))]> σ1,
       Ok p)) as Hsuite.
  { intros σ1 ws.
    unfold appliquer_format_numerique, ajuster_largeur_colonnes,
      mbind, M_bind, load_workbook, save, mret, M_ret.
    repeat (rewrite lookup_insert_eq; simpl).
    rewrite !insert_insert_eq. reflexivity. }
  destruct (σ !! p) as [[|ws0]|] eqn:E; [done| |].
  - apply Hsuite.
  - rewrite decide_True by done. apply Hsuite.
Qed.

End Export_preuves.

Lemma format_numerique_feuille_value ws r c :
  value (cell_at (format_numerique_feuille ws) r c) = value (cell_at ws r c).
Proof.
  destruct (format_numerique_feuille_spec ws) as (_ & _ & Hc).
  rewrite Hc. by case_decide.
Qed.

Section Export_theoremes.
Context `{Bibliotheque}.

Lemma feuille_finale_value df r c :
  value (cell_at (feuille_finale df) r c) = value (cell_at (feuille df) r c).
Proof.
  unfold feuille_finale, cell_at at 1.
  destruct (largeur_feuille_spec (format_numerique_feuille (feuille df)))
    as (-> & _).
  apply format_numerique_feuille_value.
Qed.

Lemma exporter_etat (df : DataFrame) (f d : path) (σ : fs) :
  (∀ q, q ∈ ancetres d → ¬ est_fichier σ q) →
  σ !! fichier_resultat f d ≠ Some Dossier →
  let σ' := <[fichier_resultat f d := Fichier (feuille_finale df)]>
              (avec_dossiers σ d) in
  exporter df f d σ = (σ', Ok (fichier_resultat f d)) ∧
  exporter df f d σ' = (σ', Ok (fichier_resultat f d)).
Proof.
  intros Hno Hnd σ'. split; [by apply exporter_ok|].
  assert (∀ q, q ∈ ancetres d → σ' !! q = Some Dossier) as Hdirs.
  { intros q Hq. unfold σ'. rewrite lookup_insert_ne.
    - by rewrite avec_dossiers_lookup, decide_True.
    - intros <-. by apply snoc_not_ancetre in Hq. }
  rewrite exporter_ok.
  - f_equal. rewrite insert_id; [|].
    + apply map_eq. intros q. rewrite avec_dossiers_lookup.
      case_decide; [by rewrite Hdirs|done].
    + rewrite avec_dossiers_lookup, decide_False by apply snoc_not_ancetre.
      unfold σ'. by rewrite lookup_insert_eq.
  - intros q Hq [ws Hws]. rewrite Hdirs in Hws by done. discriminate Hws.
  - unfold σ'. rewrite lookup_insert_eq. discriminate.
Qed.

(** C6, as amended: when no component of the output directory is a file
    and the result path is not a directory, the export returns the path
    <output_dir>/<input_stem>_resultats.xlsx, whatever the extension of
    the input file; it leaves a workbook there, the output directory and
    its parents as directories, and every other path as it was; a second
    call with the same arguments returns the same path and leaves the
    same state. *)
Theorem export_writes_one_xlsx (df : DataFrame) (f d : path) (σ : fs) :
  (∀ q, q ∈ ancetres d → ¬ est_fichier σ q) →
  σ !! (d ++ [stem f ++ resultats_xlsx]) ≠ Some Dossier →
  ∃ (σ' : fs) ws,
    exporter df f d σ = (σ', Ok (d ++ [stem f ++ resultats_xlsx])) ∧
    σ' !! (d ++ [stem f ++ resultats_xlsx]) = Some (Fichier ws) ∧
    (∀ q, q ∈ ancetres d → σ' !! q = Some Dossier) ∧
    (∀ q, q ≠ d ++ [stem f ++ resultats_xlsx] → q ∉ ancetres d →
          σ' !! q = σ !! q) ∧
    exporter df f d σ' = (σ', Ok (d ++ [stem f ++ resultats_xlsx])).
Proof.
  intros Hno Hnd. destruct (exporter_etat df f d σ Hno Hnd) as (H1 & H2).
  eexists _, (feuille_finale df). split; [exact H1|].
  fold (fichier_resultat f d).
  split; [by rewrite lookup_insert_eq|]. split; [|split; [|exact H2]].
  - intros q Hq. rewrite lookup_insert_ne.
    + by rewrite avec_dossiers_lookup, decide_True.
    + intros <-. by apply snoc_not_ancetre in Hq.
  - intros q Hq Hnq. rewrite lookup_insert_ne by done.
    by rewrite avec_dossiers_lookup, decide_False.
Qed.

(** C9: when no component of the output directory is a file and the
    result path is not a directory, two exports of the same table to the
    same directory both succeed on the same path, and the workbook left
    by each holds, cell by cell, the values of the written table: the
    passes and the second run change no value. *)
Theorem export_twice_same_values (df : DataFrame) (f d : path) (σ : fs) :
  (∀ q, q ∈ ancetres d → ¬ est_fichier σ q) →
  σ !! (d ++ [stem f ++ resultats_xlsx]) ≠ Some Dossier →
  ∃ (σ1 σ2 : fs) p ws1 ws2,
    exporter df f d σ = (σ1, Ok p) ∧
    exporter df f d σ1 = (σ2, Ok p) ∧
    σ1 !! p = Some (Fichier ws1) ∧
    σ2 !! p = Some (Fichier ws2) ∧
    ∀ r c,
      value (cell_at ws1 r c) = value (cell_at (feuille df) r c) ∧
      value (cell_at ws2 r c) = value (cell_at ws1 r c).
Proof.
  intros Hno Hnd. destruct (exporter_etat df f d σ Hno Hnd) as (H1 & H2).
  eexists _, _, _, (feuille_finale df), (feuille_finale df).
  split; [exact H1|]. split; [exact H2|].
  split; [by rewrite lookup_insert_eq|]. split; [by rewrite lookup_insert_eq|].
  intros r c. split; [apply feuille_finale_value|reflexivity].
Qed.

End Export_theoremes.

(** ** Missing columns *)



(** Membership of a label in a list of labels written out. *)
Ltac dans_liste :=
  solve [ repeat first [ apply list_elem_of_here | apply list_elem_of_further ] ].




Section Colonnes_absentes.
Context `{Bibliotheque}.


End Colonnes_absentes.


(** C4 at its failing input: without the column [Poids eau (kg)] the
    computation stops on the [KeyError] of that label before the
    recomputed net weight is assigned, and the analysis writes nothing. *)
Theorem poids_eau_absent_raises :
  calculs df_sans_poids_eau = Raise (KeyError COL_POIDS_EAU) ∧
  analyser_dechargement (H := bibliotheque_exemple df_sans_poids_eau)
    fichier_exemple dossier_exemple ∅
  = (∅, Raise (KeyError COL_POIDS_EAU)).
Proof.
  split; vm_compute; reflexivity.
Qed.

(** ** Examples of the export *)

Lemma rien_dans_vide (d : path) :
  ∀ q, q ∈ ancetres d → ¬ est_fichier (∅ : fs) q.
Proof. intros q _ [ws Hws]. rewrite lookup_empty in Hws. discriminate Hws. Defined.

Lemma pas_dossier_dans_vide (p : path) : (∅ : fs) !! p ≠ Some Dossier.
Proof. rewrite lookup_empty. discriminate. Defined.

Lemma export_writes_one_xlsx_witness :
  ∃ (σ' : fs) ws,
    exporter (H := bibliotheque_exemple df_scenario) df_scenario
      fichier_xls dossier_exemple ∅
    = (σ', Ok (dossier_exemple ++ [stem fichier_xls ++ resultats_xlsx])) ∧
    σ' !! (dossier_exemple ++ [stem fichier_xls ++ resultats_xlsx])
    = Some (Fichier ws) ∧
    (∀ q, q ∈ ancetres dossier_exemple → σ' !! q = Some Dossier) ∧
    (∀ q, q ≠ dossier_exemple ++ [stem fichier_xls ++ resultats_xlsx] →
          q ∉ ancetres dossier_exemple → σ' !! q = (∅ : fs) !! q) ∧
    exporter (H := bibliotheque_exemple df_scenario) df_scenario
      fichier_xls dossier_exemple σ'
    = (σ', Ok (dossier_exemple ++ [stem fichier_xls ++ resultats_xlsx])).
Proof.
  apply (export_writes_one_xlsx (H := bibliotheque_exemple df_scenario)
           df_scenario fichier_xls dossier_exemple ∅).
  - apply rien_dans_vide.
  - apply pas_dossier_dans_vide.
Defined.

(** C6, as stated, fails: for the input [Excel/releve.xls] the export
    returns [.../releve_resultats.xlsx], not the announced
    [.../releve_resultats.xls] with the extension of the input. *)
Lemma export_path_ignores_input_extension :
  ∃ (σ' : fs) p,
    exporter (H := bibliotheque_exemple df_scenario) df_scenario
      fichier_xls dossier_exemple ∅ = (σ', Ok p) ∧
    p = dossier_exemple ++ [py "releve_resultats.xlsx"] ∧
    chemin_annonce fichier_xls dossier_exemple
    = dossier_exemple ++ [py "releve_resultats.xls"] ∧
    p ≠ chemin_annonce fichier_xls dossier_exemple.
Proof.
  eexists _, _. split.
  { apply exporter_ok; [apply rien_dans_vide | apply pas_dossier_dans_vide]. }
  split; [vm_compute; reflexivity|]. split; [vm_compute; reflexivity|].
  intros Heq. vm_compute in Heq. discriminate Heq.
Qed.

Lemma export_twice_same_values_witness :
  ∃ (σ1 σ2 : fs) p ws1 ws2,
    exporter (H := bibliotheque_exemple df_scenario) df_scenario
      fichier_exemple dossier_exemple ∅ = (σ1, Ok p) ∧
    exporter (H := bibliotheque_exemple df_scenario) df_scenario
      fichier_exemple dossier_exemple σ1 = (σ2, Ok p) ∧
    σ1 !! p = Some (Fichier ws1) ∧
    σ2 !! p = Some (Fichier ws2) ∧
    ∀ r c,
      value (cell_at ws1 r c)
      = value (cell_at (feuille (H := bibliotheque_exemple df_scenario)
                          df_scenario) r c) ∧
      value (cell_at ws2 r c) = value (cell_at ws1 r c).
Proof.
  apply (export_twice_same_values (H := bibliotheque_exemple df_scenario)
           df_scenario fichier_exemple dossier_exemple ∅).
  - apply rien_dans_vide.
  - apply pas_dossier_dans_vide.
Defined.

Lemma numeric_format_pass_witness :
  ∃ ws',
    appliquer_format_numerique resultat_exemple fs_exemple
    = (<[resultat_exemple := Fichier ws']> fs_exemple, Ok tt) ∧
    widths ws' = widths feuille_exemple ∧
    value (cell_at feuille_exemple 0 1) = XStr (py "Poids net Calculé (kg)") ∧
    cell_at ws' 1 1
    = {| value := XNum 144.15%float; number_format := py "#,##0.00" |} ∧
    cell_at ws' 1 0 = cell_at feuille_exemple 1 0 ∧
    cell_at ws' 0 1 = cell_at feuille_exemple 0 1.
Proof.
  destruct (numeric_format_pass fs_exemple resultat_exemple feuille_exemple
              (lookup_singleton_eq _ _))
    as (ws' & E & Hw & Hc).
  assert (∀ x y : xcell,
            value x = value y → number_format x = number_format y → x = y)
    as Heq.
  { intros [v f] [v' f']. simpl. by intros -> ->. }
  exists ws'. split; [exact E|]. split; [exact Hw|].
  split; [vm_compute; reflexivity|]. split; [|split].
  - destruct (Hc 1 1) as (Hv & Hf & _). apply Heq.
    + rewrite Hv. reflexivity.
    + apply Hf; [simpl; lia|].
      exists (py "Poids net Calculé (kg)").
      split; [apply list_elem_of_further, list_elem_of_here|].
      split; [vm_compute; reflexivity|].
      intros [|[|c']] Hc'; [lia|lia|]. vm_compute. discriminate.
  - destruct (Hc 1 0) as (Hv & _ & Hf). apply Heq; [exact Hv|].
    apply Hf. right. right. intros nom Hnom [Hn _].
    vm_compute in Hn. injection Hn as <-.
    apply list_elem_of_In in Hnom. vm_compute in Hnom.
    destruct Hnom as [Hn|[Hn|[Hn|[]]]]; discriminate Hn.
  - destruct (Hc 0 1) as (Hv & _ & Hf). apply Heq; [exact Hv|].
    apply Hf. by left.
Defined.

(** On that sheet the number below [Poids net Calculé (kg)] gets the
    format and the text beside it does not. *)
Example format_feuille_exemple :
  number_format (cell_at (format_numerique_feuille feuille_exemple) 1 1)
  = py "#,##0.00" ∧
  number_format (cell_at (format_numerique_feuille feuille_exemple) 1 0)
  = py "General" ∧
  number_format (cell_at (format_numerique_feuille feuille_exemple) 0 1)
  = py "General".
Proof. repeat split; vm_compute; reflexivity. Qed.

Lemma column_width_pass_witness :
  ∃ ws',
    ajuster_largeur_colonnes (H := bibliotheque_exemple []) resultat_exemple
      fs_exemple
    = (<[resultat_exemple := Fichier ws']> fs_exemple, Ok tt) ∧
    rows ws' = rows feuille_exemple ∧
    value (cell_at feuille_exemple 0 0) = XStr (py "Navire (nom)") ∧
    length (py "Navire (nom)") = 12 ∧
    value (cell_at feuille_exemple 1 0) = XStr (py "Aurore 2") ∧
    length (py "Aurore 2") = 8 ∧
    widths ws' !! 0 = Some 14 ∧
    widths ws' !! 2 = None.
Proof.
  destruct (column_width_pass (H := bibliotheque_exemple [])
              fs_exemple resultat_exemple feuille_exemple
              (lookup_singleton_eq _ _))
    as (ws' & E & Hr & Hcols & Hautres).
  exists ws'. split; [exact E|]. split; [exact Hr|].
  do 4 (split; [vm_compute; reflexivity|]). split.
  - assert (∃ ligne, ligne ∈ rows feuille_exemple ∧ 0 < length ligne) as Hj.
    { eexists. split; [apply list_elem_of_here|]. simpl. lia. }
    destruct (Hcols 0 Hj) as [_ H14].
    apply (H14 (py "Navire (nom)")).
    + vm_compute. reflexivity.
    + vm_compute. reflexivity.
    + intros [|[|r]] Hr1; [lia| |]; vm_compute; lia.
  - rewrite Hautres; [reflexivity|].
    intros ligne Hin. apply list_elem_of_In in Hin.
    destruct Hin as [<-|[<-|[]]]; simpl; lia.
Defined.

(** On that sheet the first column, with a header of 12 characters and a
    cell of 8, gets width 14. *)
Example largeur_feuille_exemple :
  len (py "Navire (nom)") = 12 ∧ len (py "Aurore 2") = 8 ∧
  widths (largeur_feuille (H := bibliotheque_exemple []) feuille_exemple) !! 0
  = Some 14.
Proof. repeat split; vm_compute; reflexivity. Qed.

(** * Further properties of the script *)

(** ** Order of the columns computed *)

Lemma setitem_labels df l c :
  (setitem df l c).*1 = if decide (l ∈ df.*1) then df.*1 else df.*1 ++ [l].
Proof.
  induction df as [|[l0 c0] df IH]; cbn [setitem].
  { case_decide as Hd; [by apply elem_of_nil in Hd | done]. }
  destruct (decide (l0 = l)) as [->|Hne]; rewrite !fmap_cons; cbn [fst].
  - rewrite decide_True by apply list_elem_of_here. done.
  - rewrite IH. destruct (decide (l ∈ df.*1)) as [Hin|Hnin].
    + rewrite decide_True by (by apply list_elem_of_further). done.
    + rewrite decide_False; [done|].
      intros [?|?]%elem_of_cons; [congruence|done].
Qed.

Lemma table_calculee_foldl df vf vi duree temps ps pe pm :
  table_calculee df vf vi duree temps ps pe pm
  = foldl (fun d lc => setitem d lc.1 lc.2) df
      (affectations vf vi duree temps ps pe pm).
Proof. reflexivity. Qed.

Lemma filter_ext_dans {A} (P Q : A → Prop)
    `{∀ x, Decision (P x)} `{∀ x, Decision (Q x)} (l : list A) :
  (∀ x, x ∈ l → P x ↔ Q x) → filter P l = filter Q l.
Proof.
  induction l as [|x l IH]; intros Hpq; [done|].
  rewrite !filter_cons.
  assert (filter P l = filter Q l) as ->.
  { apply IH. intros y Hy. apply Hpq. by apply list_elem_of_further. }
  pose proof (Hpq x (list_elem_of_here _ _)) as Hx.
  repeat case_decide; try done; tauto.
Qed.

Lemma foldl_setitem_labels (ls : list (pystr * column)) (df : DataFrame) :
  NoDup ls.*1 →
  (foldl (fun d lc => setitem d lc.1 lc.2) df ls).*1
  = df.*1 ++ filter (fun l => l ∉ df.*1) ls.*1.
Proof.
  revert df. induction ls as [|[l c] ls IH]; intros df Hnd; simpl.
  { by rewrite app_nil_r. }
  apply NoDup_cons in Hnd as [Hl Hnd]. rewrite IH by done.
  rewrite setitem_labels, filter_cons. simpl.
  destruct (decide (l ∈ df.*1)) as [Hin|Hnin].
  - rewrite decide_False by (intros Hn; by apply Hn). done.
  - rewrite decide_True by done. rewrite <- app_assoc. simpl. do 2 f_equal.
    apply filter_ext_dans. intros l' Hl'.
    rewrite elem_of_app, list_elem_of_singleton.
    split; [tauto|]. intros Hn [?| ->]; done.
Qed.

Lemma NoDup_COLONNES_CALCULEES : NoDup COLONNES_CALCULEES.
Proof.
  unfold COLONNES_CALCULEES.
  repeat (apply NoDup_cons; split;
          [rewrite ?not_elem_of_cons; repeat split;
           solve [labels_ne | apply not_elem_of_nil]|]).
  apply NoDup_nil_2.
Qed.

Lemma table_calculee_labels df vf vi duree temps ps pe pm :
  (table_calculee df vf vi duree temps ps pe pm).*1
  = df.*1 ++ filter (fun l => l ∉ df.*1) COLONNES_CALCULEES.
Proof.
  rewrite table_calculee_foldl.
  rewrite foldl_setitem_labels; [reflexivity|]. apply NoDup_COLONNES_CALCULEES.
Qed.

(** X1: when the computation returns, the labels of the result are those
    of the table, in their order, followed by the derived labels the
    table did not have, in the order [Volume chargé (m³)],
    [Poids eau Calculé (kg)], [Durée opération], [Temps traitement],
    [Poids net Calculé (kg)], [Poids net Recalculé (kg)]. *)
Theorem derived_columns_appended_in_order (df df' : DataFrame) :
  calculs df = Ok df' →
  df'.*1 = df.*1 ++ filter (fun l => l ∉ df.*1) COLONNES_CALCULEES.
Proof.
  intros (vf & vi & duree & temps & ps & pe & pm & _ & ->)%calculs_Ok.
  apply table_calculee_labels.
Qed.

Lemma derived_columns_appended_in_order_witness :
  ∃ df', calculs df_scenario = Ok df' ∧
    df'.*1 = df_scenario.*1
             ++ filter (fun l => l ∉ df_scenario.*1) COLONNES_CALCULEES ∧
    df'.*1 = df_scenario.*1 ++ COLONNES_CALCULEES.
Proof.
  eexists. split; [vm_compute; reflexivity|]. split.
  - apply derived_columns_appended_in_order. vm_compute. reflexivity.
  - vm_compute. reflexivity.
Defined.

Lemma setitem_id df l c : getitem df l = Ok c → setitem df l c = df.
Proof.
  induction df as [|[l0 c0] df IH]; simpl; [discriminate|].
  destruct (decide (l0 = l)) as [->|Hne].
  - by intros [= ->].
  - intros E. by rewrite IH.
Qed.

Lemma colonnes_brutes_table_calculee df vf vi duree temps ps pe pm :
  colonnes_brutes df vf vi duree temps ps pe pm →
  colonnes_brutes (table_calculee df vf vi duree temps ps pe pm)
    vf vi duree temps ps pe pm.
Proof.
  intros (Hvf & Hvi & (fd & dd & Hfd & Hdd & Hd) & (fp & dp & Hfp & Hdp & Ht)
          & Hps & Hpe & Hpm).
  unfold colonnes_brutes, table_calculee. cbv zeta. lire.
  repeat split; try done.
  - exists fd, dd. lire. done.
  - exists fp, dp. lire. done.
Qed.

(** X2: the computation is idempotent: run on its own result it returns
    that result again. *)
Theorem calculs_idempotent (df df' : DataFrame) :
  calculs df = Ok df' → calculs df' = Ok df'.
Proof.
  intros (vf & vi & duree & temps & ps & pe & pm & Hb & ->)%calculs_Ok.
  rewrite (calculs_complete _ vf vi duree temps ps pe pm)
    by (by apply colonnes_brutes_table_calculee).
  f_equal.
  set (T := table_calculee df vf vi duree temps ps pe pm).
  assert (getitem T COL_VOL_CHARGE_CALCULE = Ok (Floats (volume_charge vf vi)))
    as H1 by (unfold T, table_calculee; cbv zeta; lire; done).
  assert (getitem T COL_POIDS_EAU_CALCULE
          = Ok (Floats (poids_eau (volume_charge vf vi))))
    as H2 by (unfold T, table_calculee; cbv zeta; lire; done).
  assert (getitem T COL_DUREE_OPERATION = Ok duree)
    as H3 by (unfold T, table_calculee; cbv zeta; lire; done).
  assert (getitem T COL_TEMPS_TR = Ok temps)
    as H4 by (unfold T, table_calculee; cbv zeta; lire; done).
  assert (getitem T COL_POIDS_NET_CALCULE = Ok (Floats (poids_net ps pe pm)))
    as H5 by (unfold T, table_calculee; cbv zeta; lire; done).
  assert (getitem T COL_POIDS_NET_RECALCULE
          = Ok (Floats (poids_net ps pe (poids_eau (volume_charge vf vi)))))
    as H6 by (unfold T, table_calculee; cbv zeta; lire; done).
  clearbody T. unfold table_calculee. cbv zeta.
  rewrite (setitem_id T _ _ H1), (setitem_id T _ _ H2), (setitem_id T _ _ H3),
    (setitem_id T _ _ H4), (setitem_id T _ _ H5), (setitem_id T _ _ H6).
  reflexivity.
Qed.

Lemma calculs_idempotent_witness :
  ∃ df', calculs df_scenario = Ok df' ∧ calculs df' = Ok df'.
Proof.
  eexists. split; [vm_compute; reflexivity|].
  apply (calculs_idempotent df_scenario). vm_compute. reflexivity.
Defined.



(** ** Rows *)

Lemma volume_charge_lookup vf vi i a b :
  vf !! i = Some a → vi !! i = Some b →
  volume_charge vf vi !! i = Some (Num.round2 (PrimFloat.sub a b)).
Proof.
  intros Ha Hb. unfold volume_charge. rewrite list_lookup_fmap.
  assert (zip_with PrimFloat.sub vf vi !! i = Some (PrimFloat.sub a b)) as ->;
    [|done].
  apply lookup_zip_with_Some. by eexists _, _.
Qed.

Lemma poids_eau_lookup vol i v :
  vol !! i = Some v →
  poids_eau vol !! i = Some (Num.round2 (PrimFloat.mul v Num.facteur_eau)).
Proof. intros Hv. unfold poids_eau. by rewrite !list_lookup_fmap, Hv. Qed.

(** X4: on a table with distinct labels and its raw columns the
    computation returns, and the two net weights of every row are
    computed from the values of that row alone:
    round((out - in - water) * (1 - 7/100), 2) with the measured water
    weight of the row, and the same with the estimated water weight
    round(round(final - initial, 2) * (1 + 6.6/100), 2) of the row, each
    rounding giving its operand to two decimals. *)
Theorem net_weights_row_by_row df vf vi duree temps ps pe pm :
  NoDup df.*1 →
  colonnes_brutes df vf vi duree temps ps pe pm →
  ∃ df' nm ne,
    calculs df = Ok df' ∧
    getitem df' COL_POIDS_NET_CALCULE = Ok (Floats nm) ∧
    getitem df' COL_POIDS_NET_RECALCULE = Ok (Floats ne) ∧
    ∀ i a b o e m,
      vf !! i = Some a → vi !! i = Some b →
      ps !! i = Some o → pe !! i = Some e → pm !! i = Some m →
      nm !! i = Some (Num.round2 ((o - e - m) * Num.facteur_net)%float) ∧
      ne !! i = Some (Num.round2
                        ((o - e - Num.round2 (Num.round2 (a - b)
                                              * Num.facteur_eau))
                         * Num.facteur_net)%float) ∧
      ∃ v w n1 n2,
        deux_decimales (a - b)%float v ∧
        deux_decimales (v * Num.facteur_eau)%float w ∧
        deux_decimales ((o - e - m) * Num.facteur_net)%float n1 ∧
        deux_decimales ((o - e - w) * Num.facteur_net)%float n2 ∧
        nm !! i = Some n1 ∧ ne !! i = Some n2.
Proof.
  intros _ Hb. exists (table_calculee df vf vi duree temps ps pe pm).
  exists (poids_net ps pe pm), (poids_net ps pe (poids_eau (volume_charge vf vi))).
  split; [by apply calculs_complete|].
  unfold table_calculee. cbv zeta. lire. do 2 (split; [reflexivity|]).
  intros i a b o e m Ha Hb' Ho He Hm.
  assert (poids_net ps pe pm !! i
          = Some (Num.round2 ((o - e - m) * Num.facteur_net)%float)) as H1.
  { apply poids_net_lookup. exists o, e, m. done. }
  assert (poids_net ps pe (poids_eau (volume_charge vf vi)) !! i
          = Some (Num.round2
                    ((o - e - Num.round2 (Num.round2 (a - b)
                                          * Num.facteur_eau))
                     * Num.facteur_net)%float)) as H2.
  { apply poids_net_lookup. eexists o, e, _. repeat split; try done.
    apply poids_eau_lookup. by apply volume_charge_lookup. }
  split; [exact H1|]. split; [exact H2|].
  eexists _, _, _, _.
  split; [apply round2_deux_decimales|].
  split; [apply round2_deux_decimales|].
  split; [apply round2_deux_decimales|].
  split; [apply round2_deux_decimales|].
  split; [exact H1 | exact H2].
Qed.

Lemma net_weights_row_by_row_witness :
  ∃ df' nm ne,
    calculs df_arrondis = Ok df' ∧
    getitem df' COL_POIDS_NET_CALCULE = Ok (Floats nm) ∧
    getitem df' COL_POIDS_NET_RECALCULE = Ok (Floats ne) ∧
    ∀ i a b o e m,
      [150%float; 2.5%float; 4.004%float] !! i = Some a →
      [100%float; 0%float; 0%float] !! i = Some b →
      [5200%float; 5003.5%float; 5200%float] !! i = Some o →
      [5000%float; 5000%float; 5000%float] !! i = Some e →
      [45%float; 0%float; 45%float] !! i = Some m →
      nm !! i = Some (Num.round2 ((o - e - m) * Num.facteur_net)%float) ∧
      ne !! i = Some (Num.round2
                        ((o - e - Num.round2 (Num.round2 (a - b)
                                              * Num.facteur_eau))
                         * Num.facteur_net)%float) ∧
      ∃ v w n1 n2,
        deux_decimales (a - b)%float v ∧
        deux_decimales (v * Num.facteur_eau)%float w ∧
        deux_decimales ((o - e - m) * Num.facteur_net)%float n1 ∧
        deux_decimales ((o - e - w) * Num.facteur_net)%float n2 ∧
        nm !! i = Some n1 ∧ ne !! i = Some n2.
Proof.
  exact (net_weights_row_by_row df_arrondis _ _ _ _ _ _ _
           NoDup_df_arrondis colonnes_brutes_arrondis).
Defined.

(** The net weights of the three rows of [df_arrondis]; in the second
    row (3.5 - 0) * (1 - 7/100) lies just below 3.255 and gives 3.25. *)
Example net_weights_on_three_rows :
  calculs df_arrondis ≫= (fun df' => getitem df' COL_POIDS_NET_CALCULE)
  = Ok (Floats [144.15%float; 3.25%float; 144.15%float]) ∧
  calculs df_arrondis ≫= (fun df' => getitem df' COL_POIDS_NET_RECALCULE)
  = Ok (Floats [136.43%float; 0.77%float; 182.04%float]).
Proof. split; vm_compute; reflexivity. Qed.

(** *** Missing values *)











(** The two rows of that table: the first as in the scenario, the second
    with a NaN measured net weight and the recomputed 219.52. *)
Example exemple_eau_manquante :
  ∃ df', calculs df_eau_manquante = Ok df' ∧
    getitem df' COL_POIDS_NET_CALCULE = Ok (Floats [144.15%float; nan]) ∧
    getitem df' COL_POIDS_NET_RECALCULE
      = Ok (Floats [136.43%float; 219.52%float]) ∧
    getitem df' COL_TEMPS_TR = Ok (Spans [Some 3600000000000%Z; None]).
Proof.
  eexists. split; [vm_compute; reflexivity|].
  repeat split; vm_compute; reflexivity.
Qed.

Lemma col_sub_taille a b c :
  col_sub a b = Ok c → taille c = taille a `min` taille b.
Proof.
  destruct a, b; simpl; intros E; try discriminate E;
    injection E as <-; simpl; apply length_zip_with.
Qed.

(** X6: one row out per row in.  When the nine raw columns all have [n]
    rows and the computation returns, each of the six derived columns of
    the result has [n] rows. *)
Theorem one_derived_row_per_row (df df' : DataFrame) (n : nat) :
  (∀ l c, l ∈ COLONNES_MODELE → getitem df l = Ok c → taille c = n) →
  calculs df = Ok df' →
  ∀ l, l ∈ COLONNES_CALCULEES → ∃ c, getitem df' l = Ok c ∧ taille c = n.
Proof.
  intros Hn (vf & vi & duree & temps & ps & pe & pm & Hb & ->)%calculs_Ok.
  destruct Hb as (Hvf & Hvi & (fd & dd & Hfd & Hdd & Hd)
                  & (fp & dp & Hfp & Hdp & Ht) & Hps & Hpe & Hpm).
  apply Hn in Hvf, Hvi, Hfd, Hdd, Hfp, Hdp, Hps, Hpe, Hpm;
    try (unfold COLONNES_MODELE; dans_liste).
  simpl in Hvf, Hvi, Hps, Hpe, Hpm.
  apply col_sub_taille in Hd, Ht. rewrite Hfd, Hdd in Hd. rewrite Hfp, Hdp in Ht.
  assert (length (volume_charge vf vi) = n) as Hvol.
  { unfold volume_charge. rewrite length_fmap, length_zip_with. lia. }
  assert (length (poids_eau (volume_charge vf vi)) = n) as Heau.
  { unfold poids_eau. by rewrite !length_fmap. }
  assert (∀ w, length w = n → length (poids_net ps pe w) = n) as Hnet.
  { intros w Hw. unfold poids_net.
    rewrite !length_fmap, !length_zip_with. lia. }
  intros l Hl. unfold COLONNES_CALCULEES in Hl. rewrite !elem_of_cons in Hl.
  unfold table_calculee. cbv zeta.
  destruct Hl as [->|[->|[->|[->|[->|[->|Hl]]]]]]; lire;
    try (eexists; split; [reflexivity|]; simpl; auto; lia).
  by apply elem_of_nil in Hl.
Qed.

Lemma one_derived_row_per_row_witness :
  ∃ df', calculs df_eau_manquante = Ok df' ∧
    ∀ l, l ∈ COLONNES_CALCULEES → ∃ c, getitem df' l = Ok c ∧ taille c = 2.
Proof.
  eexists. split; [vm_compute; reflexivity|].
  apply (one_derived_row_per_row df_eau_manquante).
  - intros l c Hl. unfold COLONNES_MODELE in Hl. rewrite !elem_of_cons in Hl.
    destruct Hl as [->|[->|[->|[->|[->|[->|[->|[->|[->|Hl]]]]]]]]];
      try (vm_compute; intros [= <-]; reflexivity).
    by apply elem_of_nil in Hl.
  - vm_compute. reflexivity.
Defined.

(** ** Trimming of the labels *)

Lemma lstrip_blanc_app w s : blanc w → lstrip (w ++ s) = lstrip s.
Proof.
  induction 1 as [|c w Hc Hw IH]; [done|]. simpl. by rewrite Hc.
Qed.

Lemma lstrip_idem s : lstrip (lstrip s) = lstrip s.
Proof.
  induction s as [|c s IH]; [done|]. simpl.
  destruct (isspace c) eqn:E; [done|]. simpl. by rewrite E.
Qed.

Lemma lstrip_app s t :
  lstrip (s ++ t) = match lstrip s with [] => lstrip t | u => u ++ t end.
Proof.
  induction s as [|c s IH]; simpl.
  { by destruct (lstrip t). }
  destruct (isspace c); [exact IH|done].
Qed.

Lemma rstrip_cons c s :
  rstrip (c :: s)
  = match rstrip s with
    | [] => if isspace c then [] else [c]
    | u => c :: u
    end.
Proof.
  unfold rstrip. rewrite reverse_cons, lstrip_app.
  destruct (lstrip (reverse s)) as [|x u] eqn:E.
  - rewrite reverse_nil. simpl. destruct (isspace c); reflexivity.
  - rewrite reverse_app, reverse_singleton.
    destruct (reverse (x :: u)) eqn:E'; [|done].
    apply (f_equal length) in E'. rewrite length_reverse in E'. done.
Qed.

Lemma rstrip_idem s : rstrip (rstrip s) = rstrip s.
Proof. unfold rstrip. by rewrite reverse_involutive, lstrip_idem. Qed.

Lemma rstrip_app_blanc s w : blanc w → rstrip (s ++ w) = rstrip s.
Proof.
  intros Hw. unfold rstrip. rewrite reverse_app, lstrip_blanc_app; [done|].
  unfold blanc. by apply Forall_reverse.
Qed.

(** Trimming on the left and on the right commute. *)
Lemma lstrip_rstrip s : lstrip (rstrip s) = rstrip (lstrip s).
Proof.
  induction s as [|c s IH]; [done|].
  rewrite rstrip_cons. cbn [lstrip]. destruct (isspace c) eqn:E.
  - rewrite <- IH. destruct (rstrip s) as [|x u]; [done|].
    cbn [lstrip]. by rewrite E.
  - rewrite rstrip_cons, E.
    destruct (rstrip s) as [|x u]; cbn [lstrip]; by rewrite E.
Qed.

Lemma strip_idem s : strip (strip s) = strip s.
Proof.
  unfold strip.
  by rewrite (lstrip_rstrip (lstrip s)), lstrip_idem, rstrip_idem.
Qed.

Lemma strip_blanc_autour wl s wr :
  blanc wl → blanc wr → strip (wl ++ s ++ wr) = strip s.
Proof.
  intros Hl Hr. unfold strip.
  rewrite lstrip_blanc_app by done.
  by rewrite <- !lstrip_rstrip, rstrip_app_blanc.
Qed.

(** X7: cleaning the labels is idempotent, keeps every column at its
    place with its values, and trims each label: a table cleaned twice is
    the table cleaned once, and no label of a cleaned table starts or
    ends with whitespace. *)
Theorem nettoyer_entetes_idempotent (df : DataFrame) :
  nettoyer_entetes (nettoyer_entetes df) = nettoyer_entetes df ∧
  (nettoyer_entetes df).*2 = df.*2 ∧
  ∀ l, l ∈ (nettoyer_entetes df).*1 →
       lstrip l = l ∧ rstrip l = l.
Proof.
  unfold nettoyer_entetes. split; [|split].
  - rewrite <- list_fmap_compose. apply list_fmap_ext. intros _ [l c] _. simpl.
    by rewrite strip_idem.
  - rewrite <- list_fmap_compose. by apply list_fmap_ext.
  - intros l. rewrite <- list_fmap_compose.
    intros ([l0 c0] & -> & _)%list_elem_of_fmap. simpl. unfold strip. split.
    + by rewrite lstrip_rstrip, lstrip_idem.
    + apply rstrip_idem.
Qed.

(** X8: whitespace around the labels does not count: a table whose labels
    are those of another with whitespace added before and after gives the
    same cleaned table, so the computation gives the same result for
    both. *)
Theorem padded_labels_are_matched (df1 df2 : DataFrame) :
  entetes_espacees df1 df2 →
  nettoyer_entetes df1 = nettoyer_entetes df2 ∧
  calculs (nettoyer_entetes df1) = calculs (nettoyer_entetes df2).
Proof.
  intros Hp.
  assert (nettoyer_entetes df1 = nettoyer_entetes df2) as ->; [|done].
  unfold nettoyer_entetes.
  induction Hp as [|[l1 c1] [l2 c2] df1 df2 (Hc & wl & wr & Hl & Hr & Hx) _ IH];
    [done|].
  simpl in Hc, Hx. subst. rewrite !fmap_cons. cbn [fst snd].
  rewrite strip_blanc_autour by done. by rewrite IH.
Qed.

Lemma entetes_espacees_refl df : entetes_espacees df df.
Proof.
  induction df as [|[l c] df IH]; constructor; [|exact IH].
  split; [done|]. exists [], []. rewrite app_nil_r.
  repeat split; constructor.
Defined.

Lemma padded_labels_are_matched_witness :
  nettoyer_entetes df_scenario_espace = nettoyer_entetes df_scenario ∧
  calculs (nettoyer_entetes df_scenario_espace)
  = calculs (nettoyer_entetes df_scenario).
Proof.
  apply (padded_labels_are_matched df_scenario_espace df_scenario).
  unfold entetes_espacees, df_scenario_espace, df_scenario. simpl.
  repeat (apply Forall2_cons; split;
          [split; [reflexivity|];
           first [ exists [], []; split; [constructor|]; split; [constructor|];
                   vm_compute; reflexivity
                 | exists [32%N], [32%N];
                   split; [repeat constructor|]; split; [repeat constructor|];
                   vm_compute; reflexivity
                 | exists [9%N], [32%N; 32%N];
                   split; [repeat constructor|]; split; [repeat constructor|];
                   vm_compute; reflexivity ]|]).
  apply Forall2_nil_2.
Defined.

(** ** The passes, run again and in either order *)

Lemma set_number_format_length fmt c (ligne : list xcell) :
  length (set_number_format fmt c ligne) = length ligne `max` S c.
Proof.
  unfold set_number_format.
  rewrite length_alter, length_app, length_replicate. lia.
Qed.

Lemma set_number_format_lookup_Some fmt c (ligne : list xcell) j :
  set_number_format fmt c ligne !! j
  = if decide (j < length ligne `max` S c)
    then Some (if decide (j = c)
               then avec_format fmt (default cellule_vide (ligne !! c))
               else default cellule_vide (ligne !! j))
    else None.
Proof.
  pose proof (set_number_format_lookup fmt c ligne j) as Hd.
  pose proof (set_number_format_length fmt c ligne) as Hl.
  destruct (decide (j < length ligne `max` S c)) as [Hj|Hj].
  - destruct (lookup_lt_is_Some_2 (set_number_format fmt c ligne) j) as [x Hx];
      [lia|].
    rewrite Hx in Hd |- *. f_equal. exact Hd.
  - apply lookup_ge_None_2. lia.
Qed.

Lemma set_number_format_idem fmt c (ligne : list xcell) :
  set_number_format fmt c (set_number_format fmt c ligne)
  = set_number_format fmt c ligne.
Proof.
  apply list_eq. intros j.
  rewrite (set_number_format_lookup_Some fmt c (set_number_format _ _ _)).
  rewrite set_number_format_length, !set_number_format_lookup_Some.
  repeat case_decide; try done; try lia.
Qed.

Lemma set_number_format_comm fmt c1 c2 (ligne : list xcell) :
  set_number_format fmt c1 (set_number_format fmt c2 ligne)
  = set_number_format fmt c2 (set_number_format fmt c1 ligne).
Proof.
  apply list_eq. intros j.
  rewrite (set_number_format_lookup_Some fmt c1 (set_number_format _ _ _)).
  rewrite (set_number_format_lookup_Some fmt c2 (set_number_format _ _ _)).
  rewrite !set_number_format_length, !set_number_format_lookup.
  repeat case_decide; subst; try done; try lia.
Qed.

Lemma formater_colonne_idem idx rs :
  formater_colonne idx (formater_colonne idx rs) = formater_colonne idx rs.
Proof.
  destruct rs as [|h rs]; [done|]. simpl. f_equal.
  rewrite <- list_fmap_compose. apply list_fmap_ext. intros _ l _. simpl.
  apply set_number_format_idem.
Qed.

Lemma formater_colonne_comm idx1 idx2 rs :
  formater_colonne idx1 (formater_colonne idx2 rs)
  = formater_colonne idx2 (formater_colonne idx1 rs).
Proof.
  destruct rs as [|h rs]; [done|]. simpl. f_equal.
  rewrite <- !list_fmap_compose. apply list_fmap_ext. intros _ l _. simpl.
  apply set_number_format_comm.
Qed.

Lemma formater_colonne_entete idx rs :
  formater_colonne idx rs !! 0 = rs !! 0.
Proof. by destruct rs. Qed.

(** The loop for a fixed index, on the grid. *)
Lemma format_lignes_fold (index : gmap pystr nat) noms rs :
  foldl (fun rs nom =>
           match index !! nom with
           | None => rs
           | Some idx => formater_colonne idx rs
           end) rs noms !! 0 = rs !! 0.
Proof.
  revert rs. induction noms as [|nom noms IH]; intros rs; [done|].
  cbn [foldl]. rewrite IH. destruct (index !! nom); [|done].
  apply formater_colonne_entete.
Qed.

Lemma format_numerique_feuille_lignes ws :
  format_numerique_feuille ws
  = {| rows := foldl (fun rs nom =>
                        match col_index (default [] (rows ws !! 0)) !! nom with
                        | None => rs
                        | Some idx => formater_colonne idx rs
                        end) (rows ws) NUMERIC_COLUMNS_TO_FORMAT;
       widths := widths ws |}.
Proof.
  unfold format_numerique_feuille.
  generalize (col_index (default [] (rows ws !! 0))) as index.
  intros index. generalize NUMERIC_COLUMNS_TO_FORMAT as noms. intros noms.
  revert ws. induction noms as [|nom noms IH]; intros ws; cbn [foldl].
  { by destruct ws. }
  rewrite IH. by destruct (index !! nom).
Qed.

Lemma fold_formater_comm (index : gmap pystr nat) idx noms rs :
  formater_colonne idx
    (foldl (fun rs nom =>
              match index !! nom with
              | None => rs
              | Some idx => formater_colonne idx rs
              end) rs noms)
  = foldl (fun rs nom =>
             match index !! nom with
             | None => rs
             | Some idx => formater_colonne idx rs
             end) (formater_colonne idx rs) noms.
Proof.
  revert rs. induction noms as [|nom noms IH]; intros rs; [done|].
  cbn [foldl]. rewrite IH. destruct (index !! nom); [|done].
  by rewrite formater_colonne_comm.
Qed.

Lemma fold_formater_idem (index : gmap pystr nat) noms rs :
  let F := foldl (fun rs nom =>
                    match index !! nom with
                    | None => rs
                    | Some idx => formater_colonne idx rs
                    end) in
  F (F rs noms) noms = F rs noms.
Proof.
  intros F. unfold F. revert rs.
  induction noms as [|nom noms IH]; intros rs; [done|].
  cbn [foldl]. destruct (index !! nom) as [idx|]; [|apply IH].
  rewrite fold_formater_comm, formater_colonne_idem. apply IH.
Qed.

Lemma format_numerique_feuille_idem ws :
  format_numerique_feuille (format_numerique_feuille ws)
  = format_numerique_feuille ws.
Proof.
  rewrite (format_numerique_feuille_lignes (format_numerique_feuille ws)).
  rewrite !format_numerique_feuille_lignes. cbn [rows widths].
  rewrite format_lignes_fold. f_equal. apply fold_formater_idem.
Qed.

Lemma appliquer_format_numerique_eval (σ : fs) (p : path) (ws : worksheet) :
  σ !! p = Some (Fichier ws) →
  appliquer_format_numerique p σ
  = (<[p := Fichier (format_numerique_feuille ws)]> σ, Ok tt).
Proof.
  intros Hp.
  unfold appliquer_format_numerique, mbind, M_bind, load_workbook, save.
  rewrite Hp. simpl. by rewrite Hp.
Qed.

(** X9: the format pass can be run again: on a workbook file a second
    pass succeeds and leaves the file system exactly as the first pass
    left it. *)
Theorem numeric_format_pass_twice (σ : fs) (p : path) (ws : worksheet) :
  σ !! p = Some (Fichier ws) →
  ∃ σ1 : fs,
    appliquer_format_numerique p σ = (σ1, Ok tt) ∧
    appliquer_format_numerique p σ1 = (σ1, Ok tt).
Proof.
  intros Hp. exists (<[p := Fichier (format_numerique_feuille ws)]> σ).
  split; [by apply appliquer_format_numerique_eval|].
  rewrite (appliquer_format_numerique_eval _ p (format_numerique_feuille ws))
    by apply lookup_insert_eq.
  by rewrite insert_insert_eq, format_numerique_feuille_idem.
Qed.

Lemma numeric_format_pass_twice_witness :
  ∃ σ1 : fs,
    appliquer_format_numerique resultat_exemple fs_exemple = (σ1, Ok tt) ∧
    appliquer_format_numerique resultat_exemple σ1 = (σ1, Ok tt).
Proof.
  apply (numeric_format_pass_twice fs_exemple resultat_exemple feuille_exemple).
  apply lookup_singleton_eq.
Defined.

Lemma bind_M_Ok {A B} (m : M A) (f : A → M B) (σ σ1 : fs) (a : A) :
  m σ = (σ1, Ok a) → (m ≫= f) σ = f a σ1.
Proof. intros E. unfold mbind, M_bind. by rewrite E. Qed.

Lemma bind_M_Raise {A B} (m : M A) (f : A → M B) (σ σ1 : fs) e :
  m σ = (σ1, Raise e) → (m ≫= f) σ = (σ1, Raise e).
Proof. intros E. unfold mbind, M_bind. by rewrite E. Qed.

Lemma worksheet_eq (ws1 ws2 : worksheet) :
  rows ws1 = rows ws2 → widths ws1 = widths ws2 → ws1 = ws2.
Proof. destruct ws1, ws2. simpl. by intros -> ->. Qed.

Lemma max_list_fmap_max (k h : nat) (ns : list nat) :
  k ≤ h →
  h `max` max_list ((fun n => n `max` k) <$> ns) = h `max` max_list ns.
Proof.
  intros Hk. induction ns as [|n ns IH]; [done|].
  rewrite fmap_cons. simpl. lia.
Qed.

Lemma max_list_cons (n : nat) (ns : list nat) :
  max_list (n :: ns) = n `max` max_list ns.
Proof. reflexivity. Qed.

Lemma formater_colonne_max_list idx rs :
  0 < idx ≤ length (default [] (rs !! 0)) →
  max_list (length <$> formater_colonne idx rs) = max_list (length <$> rs).
Proof.
  destruct rs as [|h donnees]; [done|]. intros Hidx.
  change (default [] ((h :: donnees) !! 0)) with h in Hidx.
  cbn [formater_colonne]. rewrite !fmap_cons, !max_list_cons.
  assert (length <$> (set_number_format num_format (idx - 1) <$> donnees)
          = (fun n => n `max` S (idx - 1)) <$> (length <$> donnees)) as ->.
  { rewrite <- !list_fmap_compose. apply list_fmap_ext. intros _ l _. simpl.
    apply set_number_format_length. }
  apply max_list_fmap_max. lia.
Qed.

Lemma col_index_borne ligne s n :
  col_index ligne !! s = Some n → 0 < n ≤ length ligne.
Proof.
  intros (c & -> & Hc & _)%col_index_spec.
  destruct (ligne !! c) eqn:E; [|done]. apply lookup_lt_Some in E. lia.
Qed.

Lemma fold_formater_max_list h noms rs :
  rs !! 0 = Some h →
  max_list (length <$>
    foldl (fun rs nom =>
             match col_index h !! nom with
             | None => rs
             | Some idx => formater_colonne idx rs
             end) rs noms)
  = max_list (length <$> rs).
Proof.
  revert rs. induction noms as [|nom noms IH]; intros rs Hh; [done|].
  cbn [foldl]. destruct (col_index h !! nom) as [idx|] eqn:E; [|by apply IH].
  rewrite IH by (by rewrite formater_colonne_entete).
  apply formater_colonne_max_list. rewrite Hh. simpl.
  by eapply col_index_borne.
Qed.

Lemma format_numerique_feuille_max_column ws :
  max_column (format_numerique_feuille ws) = max_column ws.
Proof.
  rewrite format_numerique_feuille_lignes. unfold max_column. cbn [rows].
  destruct (rows ws !! 0) as [h|] eqn:E.
  - change (default [] (Some h)) with h. by apply fold_formater_max_list.
  - destruct (rows ws); [|done].
    generalize NUMERIC_COLUMNS_TO_FORMAT as noms.
    induction noms as [|nom noms IH]; [done|]. cbn [foldl].
    by destruct (col_index (default [] None) !! nom).
Qed.

Section Passes.
Context `{Bibliotheque}.

Lemma ajuster_largeur_colonnes_eval (σ : fs) (p : path) (ws : worksheet) :
  σ !! p = Some (Fichier ws) →
  ajuster_largeur_colonnes p σ
  = (<[p := Fichier (largeur_feuille ws)]> σ, Ok tt).
Proof.
  intros Hp.
  unfold ajuster_largeur_colonnes, mbind, M_bind, load_workbook, save.
  rewrite Hp. simpl. by rewrite Hp.
Qed.

Lemma largeur_feuille_idem ws :
  largeur_feuille (largeur_feuille ws) = largeur_feuille ws.
Proof.
  destruct (largeur_feuille_spec ws) as (Hr & Hw).
  destruct (largeur_feuille_spec (largeur_feuille ws)) as (Hr2 & Hw2).
  apply worksheet_eq; [congruence|]. apply map_eq. intros j.
  rewrite Hw2. unfold max_column, colonne. rewrite Hr.
  fold (max_column ws). fold (colonne ws j). rewrite Hw.
  by case_decide.
Qed.

Lemma colonne_format_longueur ws j :
  longueur <$> colonne (format_numerique_feuille ws) j
  = longueur <$> colonne ws j.
Proof.
  destruct (format_numerique_feuille_spec ws) as (_ & Hm & _).
  apply list_eq. intros r. rewrite !list_lookup_fmap.
  destruct (decide (r < max_row ws)) as [Hlt|Hge].
  - rewrite !colonne_lookup by lia. simpl. f_equal. unfold longueur.
    by rewrite format_numerique_feuille_value.
  - rewrite !(lookup_ge_None_2 (colonne _ j)); [done| |];
      rewrite colonne_length; lia.
Qed.

Lemma largeur_format_commute ws :
  largeur_feuille (format_numerique_feuille ws)
  = format_numerique_feuille (largeur_feuille ws).
Proof.
  destruct (largeur_feuille_spec ws) as (Hr & Hw).
  destruct (largeur_feuille_spec (format_numerique_feuille ws)) as (Hr2 & Hw2).
  apply worksheet_eq.
  - rewrite Hr2, !format_numerique_feuille_lignes. cbn [rows]. by rewrite Hr.
  - destruct (format_numerique_feuille_spec ws) as (Hf & _).
    destruct (format_numerique_feuille_spec (largeur_feuille ws)) as (Hf2 & _).
    apply map_eq. intros j. rewrite Hw2, Hf2, Hw, Hf.
    by rewrite format_numerique_feuille_max_column, colonne_format_longueur.
Qed.

(** X10: the width pass can be run again: on a workbook file a second
    pass succeeds and leaves the file system exactly as the first pass
    left it. *)
Theorem column_width_pass_twice (σ : fs) (p : path) (ws : worksheet) :
  σ !! p = Some (Fichier ws) →
  ∃ σ1 : fs,
    ajuster_largeur_colonnes p σ = (σ1, Ok tt) ∧
    ajuster_largeur_colonnes p σ1 = (σ1, Ok tt).
Proof.
  intros Hp. exists (<[p := Fichier (largeur_feuille ws)]> σ).
  split; [by apply ajuster_largeur_colonnes_eval|].
  rewrite (ajuster_largeur_colonnes_eval _ p (largeur_feuille ws))
    by apply lookup_insert_eq.
  by rewrite insert_insert_eq, largeur_feuille_idem.
Qed.

(** X11: the two passes do not depend on each other: on a workbook file,
    the format pass followed by the width pass leaves the same file
    system as the width pass followed by the format pass.  The widths are
    measured on the values of the cells, whatever their format. *)
Theorem passes_commute (σ : fs) (p : path) (ws : worksheet) :
  σ !! p = Some (Fichier ws) →
  ∃ σ' : fs,
    (appliquer_format_numerique p ≫= fun _ => ajuster_largeur_colonnes p) σ
    = (σ', Ok tt) ∧
    (ajuster_largeur_colonnes p ≫= fun _ => appliquer_format_numerique p) σ
    = (σ', Ok tt).
Proof.
  intros Hp.
  exists (<[p := Fichier (largeur_feuille (format_numerique_feuille ws))]> σ).
  rewrite (bind_M_Ok _ _ _ _ _ (appliquer_format_numerique_eval σ p ws Hp)).
  rewrite (bind_M_Ok _ _ _ _ _ (ajuster_largeur_colonnes_eval σ p ws Hp)).
  rewrite (ajuster_largeur_colonnes_eval _ p (format_numerique_feuille ws))
    by apply lookup_insert_eq.
  rewrite (appliquer_format_numerique_eval _ p (largeur_feuille ws))
    by apply lookup_insert_eq.
  by rewrite !insert_insert_eq, largeur_format_commute.
Qed.

End Passes.

Lemma column_width_pass_twice_witness :
  ∃ σ1 : fs,
    ajuster_largeur_colonnes (H := bibliotheque_exemple []) resultat_exemple
      fs_exemple = (σ1, Ok tt) ∧
    ajuster_largeur_colonnes (H := bibliotheque_exemple []) resultat_exemple σ1
    = (σ1, Ok tt).
Proof.
  apply (column_width_pass_twice (H := bibliotheque_exemple [])
           fs_exemple resultat_exemple feuille_exemple).
  apply lookup_singleton_eq.
Defined.

Lemma passes_commute_witness :
  ∃ σ' : fs,
    (appliquer_format_numerique resultat_exemple ≫= fun _ =>
       ajuster_largeur_colonnes (H := bibliotheque_exemple []) resultat_exemple)
      fs_exemple = (σ', Ok tt) ∧
    (ajuster_largeur_colonnes (H := bibliotheque_exemple []) resultat_exemple
       ≫= fun _ => appliquer_format_numerique resultat_exemple)
      fs_exemple = (σ', Ok tt).
Proof.
  apply (passes_commute (H := bibliotheque_exemple [])
           fs_exemple resultat_exemple feuille_exemple).
  apply lookup_singleton_eq.
Defined.

(** ** The export, its failures and its result *)

Lemma rfind_Some c s i : rfind c s = Some i → s !! i = Some c.
Proof.
  revert i. induction s as [|x s IH]; intros i; simpl; [discriminate|].
  destruct (rfind c s) as [j|] eqn:E.
  - intros [= <-]. simpl. by apply IH.
  - destruct (N.eqb_spec x c) as [->|]; [|discriminate]. by intros [= <-].
Qed.

Lemma stem_cases (f : path) :
  stem f = name f ∨
  ∃ i, stem f = take i (name f) ∧ name f !! i = Some point ∧ i < length (name f).
Proof.
  unfold stem. destruct (rfind point (name f)) as [i|] eqn:E; [|by left].
  destruct ((0 <? i) && (i <? length (name f) - 1)) eqn:Eb; [|by left].
  right. exists i. apply andb_prop in Eb as [_ Hi%Nat.ltb_lt].
  split; [done|]. split; [by apply rfind_Some|lia].
Qed.

Lemma fichier_resultat_differe (f d : path) :
  d ++ [stem f ++ resultats_xlsx] ≠ f.
Proof.
  intros Heq.
  assert (name f = stem f ++ resultats_xlsx) as Hn.
  { unfold name at 1. rewrite <- Heq at 1. by rewrite last_snoc. }
  destruct (stem_cases f) as [Hs|(i & Hs & Hi & Hlt)].
  - rewrite Hs in Hn. apply (f_equal length) in Hn.
    rewrite length_app in Hn. simpl in Hn. lia.
  - rewrite Hs in Hn.
    rewrite <- (take_drop i (name f)) in Hn at 1.
    apply app_inv_head in Hn.
    rewrite <- (Nat.add_0_r i), <- lookup_drop, Hn in Hi.
    vm_compute in Hi. discriminate Hi.
Qed.

(** X12: the result file is never the input file: whatever the input path
    and the output directory, the path built for the result differs from
    the input path, and its name ends with [_resultats.xlsx]. *)
Theorem result_path_is_not_input_path (f d : path) :
  d ++ [stem f ++ resultats_xlsx] ≠ f ∧
  py "_resultats.xlsx" `suffix_of` name (d ++ [stem f ++ resultats_xlsx]).
Proof.
  split; [apply fichier_resultat_differe|].
  unfold name. rewrite last_snoc. simpl. by exists (stem f).
Qed.

Section Export_issues.
Context `{Bibliotheque}.

(** The three ways an export ends. *)
Lemma exporter_cases (df : DataFrame) (f d : path) (σ : fs) :
  ((∃ q, q ∈ ancetres d ∧ est_fichier σ q) ∧
   exporter df f d σ = (σ, Raise (OSError d))) ∨
  ((∀ q, q ∈ ancetres d → ¬ est_fichier σ q) ∧
   σ !! fichier_resultat f d = Some Dossier ∧
   exporter df f d σ
   = (avec_dossiers σ d, Raise (OSError (fichier_resultat f d)))) ∨
  ((∀ q, q ∈ ancetres d → ¬ est_fichier σ q) ∧
   σ !! fichier_resultat f d ≠ Some Dossier ∧
   exporter df f d σ
   = (<[fichier_resultat f d := Fichier (feuille_finale df)]>
        (avec_dossiers σ d),
      Ok (fichier_resultat f d))).
Proof.
  destruct (list_find (est_fichier σ) (ancetres d)) as [[i q]|] eqn:E.
  - left. pose proof E as (Hi & Hq & _)%list_find_Some. split.
    { exists q. split; [by eapply list_elem_of_lookup_2|done]. }
    unfold exporter. apply bind_M_Raise. unfold mkdir_parents. by rewrite E.
  - right. apply list_find_None in E. rewrite Forall_forall in E.
    assert (avec_dossiers σ d !! fichier_resultat f d
            = σ !! fichier_resultat f d) as Hp.
    { rewrite avec_dossiers_lookup, decide_False; [done|].
      apply snoc_not_ancetre. }
    destruct (σ !! fichier_resultat f d) as [[|ws]|] eqn:Hd.
    + left. split; [done|]. split; [done|].
      unfold exporter. rewrite (bind_M_Ok _ _ _ _ _ (mkdir_parents_ok d σ E)).
      cbv zeta. apply bind_M_Raise. unfold to_excel, save.
      fold (fichier_resultat f d). by rewrite Hp.
    + right. split; [done|]. split; [done|].
      apply exporter_ok; [done|]. by rewrite Hd.
    + right. split; [done|]. split; [done|].
      apply exporter_ok; [done|]. by rewrite Hd.
Qed.

End Export_issues.

Section Export_issues_theoremes.
Context `{Bibliotheque}.

(** X13: when the output directory or one of its parents is a file, the
    export raises [OSError] for the output directory, the path it was
    making, and leaves the file system untouched. *)
Theorem export_blocked_by_a_file
    (df : DataFrame) (f d : path) (σ : fs) (q : path) :
  q ∈ ancetres d → est_fichier σ q →
  exporter df f d σ = (σ, Raise (OSError d)).
Proof.
  intros Hq Hf.
  destruct (exporter_cases df f d σ) as [(_ & E)|[(Hno & _)|(Hno & _)]].
  - exact E.
  - by destruct (Hno q).
  - by destruct (Hno q).
Qed.

(** X14: when the result path is a directory, the export raises
    [OSError] for it, after the output directory and its parents have
    been made: they are directories afterwards, and every other path is
    as before. *)
Theorem export_onto_a_directory (df : DataFrame) (f d : path) (σ : fs) :
  (∀ q, q ∈ ancetres d → ¬ est_fichier σ q) →
  σ !! (d ++ [stem f ++ resultats_xlsx]) = Some Dossier →
  ∃ σ' : fs,
    exporter df f d σ
    = (σ', Raise (OSError (d ++ [stem f ++ resultats_xlsx]))) ∧
    (∀ q, q ∈ ancetres d → σ' !! q = Some Dossier) ∧
    (∀ q, q ∉ ancetres d → σ' !! q = σ !! q).
Proof.
  intros Hno Hd. exists (avec_dossiers σ d).
  destruct (exporter_cases df f d σ)
    as [((q' & Hq' & Hf') & E)|[(_ & _ & E)|(_ & Hnd & _)]].
  - by destruct (Hno q').
  - split; [exact E|]. split; intros q Hq; rewrite avec_dossiers_lookup.
    + by rewrite decide_True.
    + by rewrite decide_False.
  - done.
Qed.

(** X15: whatever its outcome, the export changes no file other than
    the result file; in particular the input file, when it is one, is
    left as it was. *)
Theorem export_touches_no_other_file
    (df : DataFrame) (f d : path) (σ σ' : fs) (r : result path) :
  exporter df f d σ = (σ', r) →
  (∀ q, est_fichier σ q → q ≠ d ++ [stem f ++ resultats_xlsx] →
        σ' !! q = σ !! q) ∧
  (est_fichier σ f → σ' !! f = σ !! f).
Proof.
  intros E.
  assert (∀ q, est_fichier σ q → q ≠ d ++ [stem f ++ resultats_xlsx] →
               σ' !! q = σ !! q) as Hgen.
  { intros q Hq Hne.
    destruct (exporter_cases df f d σ)
      as [(_ & E')|[(Hno & _ & E')|(Hno & _ & E')]];
      rewrite E' in E; injection E as <- <-; [done| |].
    - rewrite avec_dossiers_lookup, decide_False; [done|].
      intros Hin. by destruct (Hno q).
    - rewrite lookup_insert_ne by done.
      rewrite avec_dossiers_lookup, decide_False; [done|].
      intros Hin. by destruct (Hno q). }
  split; [exact Hgen|]. intros Hf. apply Hgen; [done|].
  intros Heq. by apply (fichier_resultat_differe f d).
Qed.

End Export_issues_theoremes.

Lemma export_blocked_by_a_file_witness :
  exporter (H := bibliotheque_exemple df_scenario) df_scenario
    fichier_exemple dossier_exemple fs_bloque
  = (fs_bloque, Raise (OSError dossier_exemple)).
Proof.
  apply (export_blocked_by_a_file (H := bibliotheque_exemple df_scenario)
           df_scenario fichier_exemple dossier_exemple fs_bloque
           [py "Data_Analysis"]).
  - vm_compute. apply list_elem_of_here.
  - exists feuille_exemple. apply lookup_singleton_eq.
Defined.

Lemma export_onto_a_directory_witness :
  ∃ σ' : fs,
    exporter (H := bibliotheque_exemple df_scenario) df_scenario
      fichier_exemple dossier_exemple fs_resultat_dossier
    = (σ', Raise (OSError (dossier_exemple
                           ++ [stem fichier_exemple ++ resultats_xlsx]))) ∧
    (∀ q, q ∈ ancetres dossier_exemple → σ' !! q = Some Dossier) ∧
    (∀ q, q ∉ ancetres dossier_exemple → σ' !! q = fs_resultat_dossier !! q).
Proof.
  apply (export_onto_a_directory (H := bibliotheque_exemple df_scenario)
           df_scenario fichier_exemple dossier_exemple fs_resultat_dossier).
  - intros q Hq [ws Hws]. unfold fs_resultat_dossier in Hws.
    apply lookup_singleton_Some in Hws as [_ Hws]. discriminate Hws.
  - apply lookup_singleton_eq.
Defined.

Lemma export_touches_no_other_file_witness :
  ∃ (σ' : fs) r,
    exporter (H := bibliotheque_exemple df_scenario) df_scenario
      fichier_exemple dossier_exemple fs_entree = (σ', r) ∧
    (∀ q, est_fichier fs_entree q →
          q ≠ dossier_exemple ++ [stem fichier_exemple ++ resultats_xlsx] →
          σ' !! q = fs_entree !! q) ∧
    (est_fichier fs_entree fichier_exemple →
     σ' !! fichier_exemple = fs_entree !! fichier_exemple).
Proof.
  assert (∀ q, q ∈ ancetres dossier_exemple → ¬ est_fichier fs_entree q) as Hno.
  { intros q Hq [ws Hws]. unfold fs_entree in Hws.
    apply lookup_singleton_Some in Hws as [<- _].
    apply list_elem_of_In in Hq. vm_compute in Hq.
    destruct Hq as [Hq|[Hq|[]]]; discriminate Hq. }
  assert (fs_entree !! fichier_resultat fichier_exemple dossier_exemple
          ≠ Some Dossier) as Hnd.
  { unfold fs_entree. rewrite lookup_singleton_ne; [done|].
    intros Heq. vm_compute in Heq. discriminate Heq. }
  eexists _, _. split; [by apply exporter_ok|].
  eapply export_touches_no_other_file. by apply exporter_ok.
Defined.

Section Classeur_exporte.
Context `{Bibliotheque}.

Lemma feuille_max_row df : max_row (feuille df) = S (nb_lignes df).
Proof. unfold max_row, feuille. simpl. by rewrite length_fmap, length_seq. Qed.

Lemma feuille_entete df j l c :
  df !! j = Some (l, c) →
  cell_at (feuille df) 0 j = {| value := XStr l; number_format := General |}.
Proof.
  intros Hj. unfold cell_at, cellule, feuille. simpl.
  by rewrite !list_lookup_fmap, Hj.
Qed.

Lemma feuille_donnee df j l c i :
  df !! j = Some (l, c) → i < nb_lignes df →
  cell_at (feuille df) (S i) j
  = {| value := valeur_excel c i; number_format := format_excel c i |}.
Proof.
  intros Hj Hi. unfold cell_at, cellule, feuille. simpl.
  rewrite list_lookup_fmap, lookup_seq_lt by done. simpl.
  by rewrite !list_lookup_fmap, Hj.
Qed.

Lemma feuille_hors_lignes df j r :
  nb_lignes df < r → cell_at (feuille df) r j = cellule_vide.
Proof.
  intros Hr. unfold cell_at, cellule, feuille. simpl.
  destruct r as [|r]; [lia|]. simpl.
  rewrite list_lookup_fmap, lookup_seq_ge by lia. reflexivity.
Qed.

Lemma feuille_max_column df j l c :
  df !! j = Some (l, c) → j < max_column (feuille df).
Proof.
  intros Hj%lookup_lt_Some. unfold max_column, feuille. simpl.
  rewrite !length_fmap. lia.
Qed.

Lemma feuille_colonne_nommee df j l c :
  NoDup df.*1 → df !! j = Some (l, c) → colonne_nommee (feuille df) l j.
Proof.
  intros Hnd Hj. split; [by erewrite feuille_entete|].
  intros j' Hj' Hv.
  destruct (df !! j') as [[l' c']|] eqn:E.
  - erewrite feuille_entete in Hv by done. simpl in Hv. injection Hv as ->.
    assert (j = j'); [|lia].
    eapply NoDup_lookup; [exact Hnd| |]; rewrite list_lookup_fmap.
    + by rewrite Hj.
    + by rewrite E.
  - unfold cell_at, cellule, feuille in Hv. simpl in Hv.
    rewrite !list_lookup_fmap, E in Hv. discriminate Hv.
Qed.

Lemma feuille_colonne_longueurs df j l c :
  df !! j = Some (l, c) →
  longueur <$> colonne (feuille df) j
  = len l :: ((fun i => len (valeur_texte (valeur_excel c i)))
              <$> seq 0 (nb_lignes df)).
Proof.
  intros Hj. unfold colonne, feuille. simpl.
  rewrite !list_lookup_fmap, Hj. simpl. f_equal.
  rewrite <- !list_fmap_compose. apply list_fmap_ext. intros _ i _. simpl.
  by rewrite !list_lookup_fmap, Hj.
Qed.

Lemma feuille_finale_format df j l c r :
  NoDup df.*1 → df !! j = Some (l, c) →
  number_format (cell_at (feuille_finale df) r j)
  = if decide (1 ≤ r ≤ nb_lignes df ∧ l ∈ NUMERIC_COLUMNS_TO_FORMAT)
    then num_format else number_format (cell_at (feuille df) r j).
Proof.
  intros Hnd Hj. unfold feuille_finale.
  destruct (largeur_feuille_spec (format_numerique_feuille (feuille df)))
    as (Hr & _).
  destruct (format_numerique_feuille_spec (feuille df)) as (_ & _ & Hc).
  unfold cell_at at 1. rewrite Hr. fold (cell_at (format_numerique_feuille
                                                    (feuille df)) r j).
  rewrite Hc, feuille_max_row.
  pose proof (feuille_colonne_nommee df j l c Hnd Hj) as Hcn.
  destruct (decide (1 ≤ r ≤ nb_lignes df ∧ l ∈ NUMERIC_COLUMNS_TO_FORMAT))
    as [[Hr' Hl]|Hno].
  - rewrite decide_True; [done|]. split; [lia|].
    apply Exists_exists. exists l. split; [done|].
    apply col_index_colonne_nommee. eauto.
  - rewrite decide_False; [done|].
    intros [Hr' Hex]. apply Hno. split; [lia|].
    apply Exists_exists in Hex as (nom & Hnom & Hidx).
    apply col_index_colonne_nommee in Hidx as (j0 & [= <-] & Hv & _).
    destruct Hcn as [Hv' _]. rewrite Hv' in Hv. by injection Hv as ->.
Qed.

Lemma feuille_finale_largeur df j l c :
  df !! j = Some (l, c) →
  widths (feuille_finale df) !! j
  = Some (max_list (len l :: ((fun i => len (valeur_texte (valeur_excel c i)))
                              <$> seq 0 (nb_lignes df))) + 2).
Proof.
  intros Hj. unfold feuille_finale.
  destruct (largeur_feuille_spec (format_numerique_feuille (feuille df)))
    as (_ & Hw).
  rewrite Hw, format_numerique_feuille_max_column, decide_True
    by (by eapply feuille_max_column).
  by rewrite colonne_format_longueur, (feuille_colonne_longueurs df j l c).
Qed.

(** X16: the workbook of a successful export.  When the export of a table
    with distinct labels returns a path, the workbook at that path has
    one row more than the table and holds, for each column of the table:
    its label in row 1, with the format [General]; its values in the
    rows below; on those rows the format [#,##0.00] if the label is one
    of the three numeric labels, and otherwise the format the writer
    gave the cell: [YYYY-MM-DD HH:MM:SS] for a timestamp, [0] for a time
    span, [General] for a number, a text or a missing value; and the
    width max(len(label), len(text of each value)) + 2. *)
Theorem exported_workbook
    (df : DataFrame) (f d : path) (σ σ' : fs) (p : path) :
  NoDup df.*1 →
  exporter df f d σ = (σ', Ok p) →
  ∃ ws,
    σ' !! p = Some (Fichier ws) ∧
    length (rows ws) = S (nb_lignes df) ∧
    ∀ j l c, df !! j = Some (l, c) →
      cell_at ws 0 j = {| value := XStr l; number_format := py "General" |} ∧
      (∀ i, i < nb_lignes df →
         value (cell_at ws (S i) j) = valeur_excel c i ∧
         number_format (cell_at ws (S i) j)
         = if decide (l ∈ [py "Poids eau Calculé (kg)";
                           py "Poids net Calculé (kg)";
                           py "Poids net Recalculé (kg)"])
           then py "#,##0.00"
           else match c with
                | Dates ts =>
                    if ts !! i is Some (Some _)
                    then py "YYYY-MM-DD HH:MM:SS" else py "General"
                | Spans ds =>
                    if ds !! i is Some (Some _) then py "0" else py "General"
                | Floats _ | Objects _ => py "General"
                end) ∧
      widths ws !! j
      = Some (max_list
                (length l
                 :: ((fun i => match valeur_excel c i with
                               | XNone => 0
                               | XStr s => length s
                               | XNum x => length (str_float x)
                               | XDate t => length (str_datetime t)
                               end)
                     <$> seq 0 (nb_lignes df))) + 2).
Proof.
  intros Hnd E. exists (feuille_finale df).
  destruct (exporter_cases df f d σ)
    as [(_ & E')|[(_ & _ & E')|(_ & _ & E')]];
    rewrite E' in E; try discriminate E.
  injection E as <- <-. split; [by rewrite lookup_insert_eq|].
  split.
  { unfold feuille_finale.
    destruct (largeur_feuille_spec (format_numerique_feuille (feuille df)))
      as (-> & _).
    destruct (format_numerique_feuille_spec (feuille df)) as (_ & Hm & _).
    unfold max_row in Hm. rewrite Hm. apply feuille_max_row. }
  intros j l c Hj.
  rewrite <- NUMERIC_COLUMNS_TO_FORMAT_literal, <- num_format_literal,
    <- format_datetime_literal, <- format_timedelta_literal,
    <- General_literal.
  split; [|split].
  - pose proof (feuille_finale_value df 0 j) as Hv.
    pose proof (feuille_finale_format df j l c 0 Hnd Hj) as Hf.
    rewrite decide_False in Hf by lia.
    rewrite (feuille_entete df j l c Hj) in Hv, Hf. simpl in Hv, Hf.
    destruct (cell_at (feuille_finale df) 0 j) as [v fmt].
    simpl in Hv, Hf. by subst.
  - intros i Hi. split.
    + rewrite feuille_finale_value. by erewrite feuille_donnee.
    + rewrite (feuille_finale_format df j l c (S i) Hnd Hj).
      rewrite (feuille_donnee df j l c i Hj Hi). simpl.
      destruct (decide (l ∈ NUMERIC_COLUMNS_TO_FORMAT)) as [Hl|Hl].
      * rewrite decide_True by (split; [lia|done]). reflexivity.
      * rewrite decide_False by (intros [_ ?]; done). reflexivity.
  - rewrite (feuille_finale_largeur df j l c Hj). do 3 f_equal.
    unfold len. f_equal.
    apply list_fmap_ext. intros _ i _.
    by destruct (valeur_excel c i).
Qed.

End Classeur_exporte.

Lemma NoDup_df_exemple_calcule : NoDup df_exemple_calcule.*1.
Proof. apply (bool_decide_unpack _). vm_compute. exact I. Defined.

Lemma exported_workbook_witness :
  ∃ (σ' : fs) p ws,
    exporter (H := bibliotheque_exemple []) df_exemple_calcule
      fichier_exemple dossier_exemple ∅ = (σ', Ok p) ∧
    σ' !! p = Some (Fichier ws) ∧
    length (rows ws) = S (nb_lignes df_exemple_calcule) ∧
    ∀ j l c, df_exemple_calcule !! j = Some (l, c) →
      cell_at ws 0 j = {| value := XStr l; number_format := py "General" |} ∧
      (∀ i, i < nb_lignes df_exemple_calcule →
         value (cell_at ws (S i) j)
         = valeur_excel (H := bibliotheque_exemple []) c i ∧
         number_format (cell_at ws (S i) j)
         = if decide (l ∈ [py "Poids eau Calculé (kg)";
                           py "Poids net Calculé (kg)";
                           py "Poids net Recalculé (kg)"])
           then py "#,##0.00"
           else match c with
                | Dates ts =>
                    if ts !! i is Some (Some _)
                    then py "YYYY-MM-DD HH:MM:SS" else py "General"
                | Spans ds =>
                    if ds !! i is Some (Some _) then py "0" else py "General"
                | Floats _ | Objects _ => py "General"
                end) ∧
      widths ws !! j
      = Some (max_list
                (length l
                 :: ((fun i =>
                        match valeur_excel (H := bibliotheque_exemple []) c i
                        with
                        | XNone => 0
                        | XStr s => length s
                        | XNum x =>
                            length (str_float (Bibliotheque := bibliotheque_exemple []) x)
                        | XDate t =>
                            length (str_datetime (Bibliotheque := bibliotheque_exemple []) t)
                        end)
                     <$> seq 0 (nb_lignes df_exemple_calcule))) + 2).
Proof.
  assert (exporter (H := bibliotheque_exemple []) df_exemple_calcule
            fichier_exemple dossier_exemple ∅
          = (<[fichier_resultat fichier_exemple dossier_exemple
               := Fichier (feuille_finale (H := bibliotheque_exemple [])
                             df_exemple_calcule)]>
               (avec_dossiers ∅ dossier_exemple),
             Ok (fichier_resultat fichier_exemple dossier_exemple))) as E.
  { apply exporter_ok; [apply rien_dans_vide | apply pas_dossier_dans_vide]. }
  destruct (exported_workbook (H := bibliotheque_exemple [])
              df_exemple_calcule fichier_exemple dossier_exemple ∅ _ _
              NoDup_df_exemple_calcule E)
    as (ws & Hws).
  eexists _, _, ws. split; [exact E | exact Hws].
Defined.

(** The formats of the one data row of that workbook, column by column:
    the ship name, the two time spans, the four timestamps, the six
    plain numbers and the three formatted weights. *)
Example exported_formats :
  number_format
  <$> default [] (rows (feuille_finale (H := bibliotheque_exemple [])
                          df_exemple_calcule) !! 1)
  = [py "General"; py "0";
     py "YYYY-MM-DD HH:MM:SS"; py "YYYY-MM-DD HH:MM:SS";
     py "YYYY-MM-DD HH:MM:SS"; py "YYYY-MM-DD HH:MM:SS";
     py "General"; py "General"; py "General"; py "General"; py "General";
     py "General"; py "#,##0.00"; py "0"; py "#,##0.00"; py "#,##0.00"].
Proof. vm_compute. reflexivity. Qed.

Section Analyse_complete.
Context `{Bibliotheque}.

(** X17: what a successful analysis writes.  When the labels of the
    table read are distinct after trimming, the table has its raw
    columns, no component of the output directory is a file and the
    result path is not a directory, the analysis returns the result path
    and leaves a workbook there whose first row holds, in order, the
    trimmed labels of the table read followed by the derived labels the
    table did not have. *)
Theorem analysis_writes_the_enriched_table
    (f d : path) (σ : fs) (df_lu : DataFrame)
    (vf vi : list float) (duree temps : column) (ps pe pm : list float) :
  read_excel f σ = Ok df_lu →
  NoDup (strip <$> df_lu.*1) →
  colonnes_brutes (nettoyer_entetes df_lu) vf vi duree temps ps pe pm →
  (∀ q, q ∈ ancetres d → ¬ est_fichier σ q) →
  σ !! (d ++ [stem f ++ resultats_xlsx]) ≠ Some Dossier →
  ∃ (σ' : fs) ws,
    analyser_dechargement f d σ = (σ', Ok (d ++ [stem f ++ resultats_xlsx])) ∧
    σ' !! (d ++ [stem f ++ resultats_xlsx]) = Some (Fichier ws) ∧
    ∀ j l,
      ((strip <$> df_lu.*1)
       ++ filter (fun l => l ∉ strip <$> df_lu.*1) COLONNES_CALCULEES) !! j
      = Some l →
      value (cell_at ws 0 j) = XStr l.
Proof.
  intros Hlu _ Hb Hno Hnd.
  set (df' := table_calculee (nettoyer_entetes df_lu) vf vi duree temps ps pe pm).
  assert (calculs (nettoyer_entetes df_lu) = Ok df') as Hc
    by (by apply calculs_complete).
  exists (<[fichier_resultat f d := Fichier (feuille_finale df')]>
            (avec_dossiers σ d)), (feuille_finale df').
  split; [|split].
  - unfold analyser_dechargement.
    rewrite (bind_M_Ok _ _ σ σ df_lu) by (by rewrite Hlu).
    cbv zeta. rewrite (bind_M_Ok _ _ σ σ df') by (unfold lever; by rewrite Hc).
    by apply exporter_ok.
  - apply lookup_insert_eq.
  - intros j l Hj.
    pose proof (table_calculee_labels (nettoyer_entetes df_lu)
                  vf vi duree temps ps pe pm) as Hl.
    fold df' in Hl.
    assert ((nettoyer_entetes df_lu).*1 = strip <$> df_lu.*1) as Hs.
    { unfold nettoyer_entetes. rewrite <- !list_fmap_compose.
      by apply list_fmap_ext. }
    rewrite Hs in Hl. rewrite <- Hl in Hj.
    rewrite list_lookup_fmap in Hj.
    destruct (df' !! j) as [[l' c']|] eqn:E; [|done].
    simpl in Hj. injection Hj as ->.
    rewrite feuille_finale_value. by erewrite feuille_entete.
Qed.

End Analyse_complete.

Lemma NoDup_scenario_espace : NoDup (strip <$> df_scenario_espace.*1).
Proof. apply (bool_decide_unpack _). vm_compute. exact I. Defined.

Lemma colonnes_brutes_scenario_espace :
  colonnes_brutes (nettoyer_entetes df_scenario_espace) [150%float] [100%float]
    (Spans [Some 2400000000000%Z]) (Spans [Some 3600000000000%Z])
    [5200%float] [5000%float] [45%float].
Proof.
  unfold colonnes_brutes.
  repeat split; try reflexivity; eexists _, _; repeat split; reflexivity.
Defined.

Lemma analysis_writes_the_enriched_table_witness :
  ∃ (σ' : fs) ws,
    analyser_dechargement (H := bibliotheque_exemple df_scenario_espace)
      fichier_exemple dossier_exemple ∅
    = (σ', Ok (dossier_exemple ++ [stem fichier_exemple ++ resultats_xlsx])) ∧
    σ' !! (dossier_exemple ++ [stem fichier_exemple ++ resultats_xlsx])
    = Some (Fichier ws) ∧
    ∀ j l,
      ((strip <$> df_scenario_espace.*1)
       ++ filter (fun l => l ∉ strip <$> df_scenario_espace.*1)
            COLONNES_CALCULEES) !! j
      = Some l →
      value (cell_at ws 0 j) = XStr l.
Proof.
  apply (analysis_writes_the_enriched_table
           (H := bibliotheque_exemple df_scenario_espace)
           fichier_exemple dossier_exemple ∅ df_scenario_espace
           _ _ _ _ _ _ _ eq_refl NoDup_scenario_espace
           colonnes_brutes_scenario_espace).
  - apply rien_dans_vide.
  - apply pas_dossier_dans_vide.
Defined.

(** ** The entry point *)

Lemma avec_dossiers_pas_fichier (σ : fs) (d q : path) :
  (∀ q, q ∈ ancetres d → ¬ est_fichier σ q) →
  q ∈ ancetres d → ¬ est_fichier (avec_dossiers σ d) q.
Proof.
  intros _ Hq [ws Hws]. rewrite avec_dossiers_lookup, decide_True in Hws by done.
  discriminate Hws.
Qed.

Lemma avec_dossiers_idem (σ : fs) (d : path) :
  avec_dossiers (avec_dossiers σ d) d = avec_dossiers σ d.
Proof.
  apply map_eq. intros q. rewrite !avec_dossiers_lookup. by case_decide.
Qed.

Lemma entree_pas_ancetre (d p : path) : entree_xlsx d p → p ∉ ancetres d.
Proof.
  intros (Hp & Hd & _) Hin%ancetres_length.
  destruct (exists_last Hp) as (p0 & x & ->).
  rewrite removelast_last in Hd. subst. rewrite length_app in Hin.
  simpl in Hin. lia.
Qed.

Lemma glob_xlsx_avec_dossiers (σ : fs) (d : path) :
  glob_xlsx (avec_dossiers σ d) d ↔ glob_xlsx σ d.
Proof.
  unfold glob_xlsx. rewrite !map_Exists_lookup. split.
  - intros (p & x & Hp & He). exists p, x. split; [|done].
    rewrite avec_dossiers_lookup, decide_False in Hp; [done|].
    by apply entree_pas_ancetre.
  - intros (p & x & Hp & He). exists p, x. split; [|done].
    rewrite avec_dossiers_lookup, decide_False; [done|].
    by apply entree_pas_ancetre.
Qed.

Section Point_d_entree_preuves.
Context `{Bibliotheque}.

Lemma creer_fichier_modele_eval (σ : fs) (d : path) :
  est_dossier σ d →
  creer_fichier_modele d σ
  = (if decide (existe σ (d ++ [modele_import_xlsx])) then σ
     else <[d ++ [modele_import_xlsx] := Fichier (feuille table_modele)]> σ,
     Ok tt).
Proof.
  intros Hd. unfold creer_fichier_modele. cbv zeta.
  case_decide as He; [done|].
  unfold to_excel, save.
  destruct (σ !! (d ++ [modele_import_xlsx])) as [n|] eqn:E.
  { destruct He. right. by rewrite E. }
  rewrite removelast_last. by rewrite decide_True.
Qed.

(** X18: the template.  In a directory, [creer_fichier_modele] never
    raises and never touches an existing [modele_import.xlsx]; when there
    is none it writes a workbook of one row, the nine expected labels, in
    order; run again it changes nothing. *)
Theorem template_created_once (σ : fs) (d : path) :
  est_dossier σ d →
  ∃ σ' : fs,
    creer_fichier_modele d σ = (σ', Ok tt) ∧
    creer_fichier_modele d σ' = (σ', Ok tt) ∧
    (∀ q, q ≠ d ++ [modele_import_xlsx] → σ' !! q = σ !! q) ∧
    (existe σ (d ++ [modele_import_xlsx]) → σ' = σ) ∧
    (¬ existe σ (d ++ [modele_import_xlsx]) →
     ∃ ws, σ' !! (d ++ [modele_import_xlsx]) = Some (Fichier ws) ∧
           rows ws = [(fun l => {| value := XStr l; number_format := General |})
                      <$> COLONNES_MODELE]).
Proof.
  intros Hd. rewrite creer_fichier_modele_eval by done.
  destruct (decide (existe σ (d ++ [modele_import_xlsx]))) as [He|He].
  - exists σ. split; [done|]. split.
    { rewrite creer_fichier_modele_eval by done. by rewrite decide_True. }
    repeat split; try done.
  - eexists. split; [done|]. split; [|split; [|split]].
    + rewrite creer_fichier_modele_eval.
      * rewrite decide_True; [done|]. right. by rewrite lookup_insert_eq.
      * destruct Hd as [->|Hd]; [by left|right].
        rewrite lookup_insert_ne; [done|].
        intros Heq%(f_equal length). rewrite length_app in Heq. simpl in Heq. lia.
    + intros q Hq. by rewrite lookup_insert_ne.
    + done.
    + intros _. eexists. split; [apply lookup_insert_eq|].
      vm_compute. reflexivity.
Qed.

Lemma main_debut (cwd : path) (a : pystr) (input choix : option path) (σ : fs) :
  (∀ q, q ∈ ancetres (cwd ++ [Excel]) → ¬ est_fichier σ q) →
  mkdir_parents (cwd ++ [Excel]) σ = (avec_dossiers σ (cwd ++ [Excel]), Ok tt) ∧
  est_dossier (avec_dossiers σ (cwd ++ [Excel])) (cwd ++ [Excel]).
Proof.
  intros Hno. split; [by apply mkdir_parents_ok|]. right.
  rewrite avec_dossiers_lookup, decide_True; [done|].
  apply ancetres_self. by destruct cwd.
Qed.

(** X19: [main] raises only when the [Excel] directory cannot be made.
    Either no component of the path of that directory is a file, and
    [main] returns normally, whatever the arguments, the dialog and the
    analysis do; or one is, and [main] raises the [OSError] of the
    directory it could not make and changes nothing. *)
Theorem main_raises_only_for_excel_directory
    (cwd : path) (a : pystr) (input choix : option path) (σ : fs) :
  ((∀ q, q ∈ ancetres (cwd ++ [Excel]) → ¬ est_fichier σ q) ∧
   ∃ (σ' : fs) fin, main cwd a input choix σ = (σ', Ok fin)) ∨
  ((∃ q, q ∈ ancetres (cwd ++ [Excel]) ∧ est_fichier σ q) ∧
   main cwd a input choix σ = (σ, Raise (OSError (cwd ++ [Excel])))).
Proof.
  destruct (list_find (est_fichier σ) (ancetres (cwd ++ [Excel])))
    as [[i q]|] eqn:E.
  { right. pose proof E as (Hi & Hq & _)%list_find_Some. split.
    { exists q. split; [by eapply list_elem_of_lookup_2|done]. }
    unfold main. cbv zeta. apply bind_M_Raise. unfold mkdir_parents.
    by rewrite E. }
  left. apply list_find_None in E. rewrite Forall_forall in E.
  split; [exact E|].
  destruct (main_debut cwd a input choix σ E) as (Hmk & Hdir).
  set (σ0 := avec_dossiers σ (cwd ++ [Excel])) in *.
  unfold main. cbv zeta. rewrite (bind_M_Ok _ _ _ _ _ Hmk).
  destruct input as [p|].
  - destruct (decide (existe σ0 p)) as [He|He].
    + rewrite (bind_M_Ok _ _ σ0 σ0 (inr p)) by (by rewrite decide_True).
      destruct (analyser_dechargement p (cwd ++ [Data_Analysis; a]) σ0)
        as [σ' [r|e]]; eauto.
    + rewrite (bind_M_Ok _ _ σ0 σ0 (inl (Fichier_introuvable p)))
        by (by rewrite decide_False).
      eauto.
  - destruct (decide (glob_xlsx σ0 (cwd ++ [Excel]))) as [Hg|Hg].
    + assert (cli_selectionner_fichier cwd choix σ0 = (σ0, Ok choix)) as Hcli.
      { unfold cli_selectionner_fichier.
        rewrite (bind_M_Ok _ _ σ0 σ0 tt); [done|].
        rewrite mkdir_parents_ok by (intros q Hq; by apply avec_dossiers_pas_fichier).
        unfold σ0. by rewrite avec_dossiers_idem. }
      destruct choix as [p|].
      * rewrite (bind_M_Ok _ _ σ0 σ0 (inr p)).
        -- destruct (analyser_dechargement p (cwd ++ [Data_Analysis; a]) σ0)
             as [σ' [r|e]]; eauto.
        -- rewrite decide_True by done. by rewrite (bind_M_Ok _ _ _ _ _ Hcli).
      * rewrite (bind_M_Ok _ _ σ0 σ0 (inl Aucun_fichier_selectionne)); [eauto|].
        rewrite decide_True by done. by rewrite (bind_M_Ok _ _ _ _ _ Hcli).
    + pose proof (creer_fichier_modele_eval σ0 (cwd ++ [Excel]) Hdir) as Hcr.
      erewrite (bind_M_Ok _ _ σ0 _ (inl Aucun_fichier_trouve)); [eauto|].
      rewrite decide_False by done. by rewrite (bind_M_Ok _ _ _ _ _ Hcr).
Qed.

End Point_d_entree_preuves.

Lemma est_fichier_avec_dossiers (σ : fs) (d q : path) :
  est_fichier (avec_dossiers σ d) q → est_fichier σ q.
Proof.
  intros [ws Hws]. rewrite avec_dossiers_lookup in Hws.
  case_decide; [discriminate Hws|]. by exists ws.
Qed.

Lemma existe_avec_dossiers (σ : fs) (d p : path) :
  existe σ p → existe (avec_dossiers σ d) p.
Proof.
  intros [->|Hp]; [by left|right]. rewrite avec_dossiers_lookup.
  by case_decide.
Qed.

Lemma modele_est_entree (d : path) : entree_xlsx d (d ++ [modele_import_xlsx]).
Proof.
  split; [by destruct d|]. split; [apply removelast_last|].
  unfold name. rewrite last_snoc. simpl.
  by exists (py "modele_import").
Qed.

Section Point_d_entree_theoremes.
Context `{Bibliotheque}.

(** X20: an input path that does not exist.  When the [Excel] directory
    can be made and the path given with [--input] is not in the file
    system, [main] reports it as not found; afterwards the [Excel]
    directory and its parents are directories and every other path is as
    before: nothing is analysed and no output directory is made. *)
Theorem main_input_not_found
    (cwd : path) (a : pystr) (p : path) (choix : option path) (σ : fs) :
  (∀ q, q ∈ ancetres (cwd ++ [Excel]) → ¬ est_fichier σ q) →
  p ≠ [] → σ !! p = None → p ∉ ancetres (cwd ++ [Excel]) →
  ∃ σ' : fs,
    main cwd a (Some p) choix σ = (σ', Ok (Fichier_introuvable p)) ∧
    (∀ q, q ∈ ancetres (cwd ++ [Excel]) → σ' !! q = Some Dossier) ∧
    (∀ q, q ∉ ancetres (cwd ++ [Excel]) → σ' !! q = σ !! q).
Proof.
  intros Hno Hp Hnone Hanc.
  destruct (main_debut cwd a (Some p) choix σ Hno) as (Hmk & _).
  exists (avec_dossiers σ (cwd ++ [Excel])). split; [|split].
  - unfold main. cbv zeta. rewrite (bind_M_Ok _ _ _ _ _ Hmk).
    erewrite (bind_M_Ok _ _ _ _ (inl (Fichier_introuvable p))); [done|].
    rewrite decide_False; [done|]. intros [?|[x Hx]]; [done|].
    rewrite avec_dossiers_lookup, decide_False, Hnone in Hx by done.
    discriminate Hx.
  - intros q Hq. by rewrite avec_dossiers_lookup, decide_True.
  - intros q Hq. by rewrite avec_dossiers_lookup, decide_False.
Qed.

(** X21: the first run without argument.  When the [Excel] directory can
    be made and holds no entry whose name ends with [.xlsx], [main]
    without [--input] writes the template [Excel/modele_import.xlsx], a
    workbook of one row with the nine expected labels, and stops.  The
    template is itself such an entry: a second run without argument goes
    on to the file dialog, and ends there when the dialog is dismissed,
    changing nothing. *)
Theorem main_first_run_writes_template
    (cwd : path) (a : pystr) (choix : option path) (σ : fs) :
  (∀ q, q ∈ ancetres (cwd ++ [Excel]) → ¬ est_fichier σ q) →
  ¬ glob_xlsx σ (cwd ++ [Excel]) →
  ∃ (σ' : fs) ws,
    main cwd a None choix σ = (σ', Ok Aucun_fichier_trouve) ∧
    σ' !! (cwd ++ [Excel] ++ [modele_import_xlsx]) = Some (Fichier ws) ∧
    rows ws = [(fun l => {| value := XStr l; number_format := General |})
               <$> COLONNES_MODELE] ∧
    main cwd a None None σ' = (σ', Ok Aucun_fichier_selectionne).
Proof.
  intros Hno Hg.
  destruct (main_debut cwd a None choix σ Hno) as (Hmk & Hdir).
  set (d := cwd ++ [Excel]) in *.
  set (σ0 := avec_dossiers σ d) in *.
  assert (¬ glob_xlsx σ0 d) as Hg0
    by (intros Hg0; apply Hg; by apply glob_xlsx_avec_dossiers).
  assert (¬ existe σ0 (d ++ [modele_import_xlsx])) as He.
  { intros [Hnil|[x Hx]]; [by destruct d|]. apply Hg0.
    eapply map_Exists_lookup_2; [exact Hx|]. apply modele_est_entree. }
  set (σ1 := <[d ++ [modele_import_xlsx] := Fichier (feuille table_modele)]> σ0).
  assert (creer_fichier_modele d σ0 = (σ1, Ok tt)) as Hcr.
  { rewrite creer_fichier_modele_eval by done. by rewrite decide_False. }
  exists σ1, (feuille table_modele).
  split; [|split; [|split]].
  - unfold main. cbv zeta. fold d. rewrite (bind_M_Ok _ _ _ _ _ Hmk).
    erewrite (bind_M_Ok _ _ σ0 _ (inl Aucun_fichier_trouve)); [done|].
    rewrite decide_False by done. by rewrite (bind_M_Ok _ _ _ _ _ Hcr).
  - unfold σ1, d. rewrite <- app_assoc. apply lookup_insert_eq.
  - vm_compute. reflexivity.
  - assert (∀ q, q ∈ ancetres d → σ1 !! q = Some Dossier) as Hd1.
    { intros q Hq. unfold σ1. rewrite lookup_insert_ne.
      - unfold σ0. by rewrite avec_dossiers_lookup, decide_True.
      - intros <-. by apply snoc_not_ancetre in Hq. }
    assert (avec_dossiers σ1 d = σ1) as Hid.
    { apply map_eq. intros q. rewrite avec_dossiers_lookup.
      case_decide; [by rewrite Hd1|done]. }
    assert (mkdir_parents d σ1 = (σ1, Ok tt)) as Hmk1.
    { rewrite mkdir_parents_ok; [by rewrite Hid|].
      intros q Hq [ws Hws]. rewrite Hd1 in Hws by done. discriminate Hws. }
    assert (glob_xlsx σ1 d) as Hg1.
    { eapply map_Exists_lookup_2; [apply lookup_insert_eq|].
      apply modele_est_entree. }
    unfold main. cbv zeta. fold d. rewrite (bind_M_Ok _ _ _ _ _ Hmk1).
    erewrite (bind_M_Ok _ _ σ1 σ1 (inl Aucun_fichier_selectionne)); [done|].
    rewrite decide_True by done. unfold cli_selectionner_fichier. fold d.
    rewrite (bind_M_Ok _ _ σ1 σ1 None); [done|].
    by rewrite (bind_M_Ok _ _ _ _ _ Hmk1).
Qed.


(** X23: a successful run.  When the [Excel] directory can be made, the
    input file exists, the labels of the table read are distinct after
    trimming, the table has its raw columns, no component of the dated
    output directory is a file and the result path is not a directory,
    [main] ends by opening the result
    [<cwd>/Data_Analysis/<date>/<stem>_resultats.xlsx], which is then a
    workbook. *)
Theorem main_writes_under_dated_directory
    (cwd : path) (a : pystr) (p : path) (choix : option path) (σ : fs)
    (df_lu : DataFrame)
    (vf vi : list float) (duree temps : column) (ps pe pm : list float) :
  (∀ q, q ∈ ancetres (cwd ++ [Excel]) → ¬ est_fichier σ q) →
  existe σ p →
  read_excel p (avec_dossiers σ (cwd ++ [Excel])) = Ok df_lu →
  NoDup (strip <$> df_lu.*1) →
  colonnes_brutes (nettoyer_entetes df_lu) vf vi duree temps ps pe pm →
  (∀ q, q ∈ ancetres (cwd ++ [Data_Analysis; a]) → ¬ est_fichier σ q) →
  σ !! (cwd ++ [Data_Analysis; a] ++ [stem p ++ resultats_xlsx])
    ≠ Some Dossier →
  ∃ (σ' : fs) ws,
    main cwd a (Some p) choix σ
    = (σ', Ok (Resultat_ouvert
                 (cwd ++ [Data_Analysis; a] ++ [stem p ++ resultats_xlsx]))) ∧
    σ' !! (cwd ++ [Data_Analysis; a] ++ [stem p ++ resultats_xlsx])
    = Some (Fichier ws).
Proof.
  intros Hno Hp Hlu _ Hb Hno2 Hnd.
  destruct (main_debut cwd a (Some p) choix σ Hno) as (Hmk & _).
  set (σ0 := avec_dossiers σ (cwd ++ [Excel])) in *.
  set (d := cwd ++ [Data_Analysis; a]).
  set (df' := table_calculee (nettoyer_entetes df_lu) vf vi duree temps ps pe pm).
  assert (calculs (nettoyer_entetes df_lu) = Ok df') as Hc
    by (by apply calculs_complete).
  assert (cwd ++ [Data_Analysis; a] ++ [stem p ++ resultats_xlsx]
          = fichier_resultat p d) as Hr.
  { unfold fichier_resultat, d. by rewrite <- app_assoc. }
  rewrite Hr in *.
  assert (exporter df' p d σ0
          = (<[fichier_resultat p d := Fichier (feuille_finale df')]>
               (avec_dossiers σ0 d), Ok (fichier_resultat p d))) as He.
  { apply exporter_ok.
    - intros q Hq Hf. apply (Hno2 q Hq). by eapply est_fichier_avec_dossiers.
    - unfold σ0. rewrite avec_dossiers_lookup, decide_False; [done|].
      intros Hin%ancetres_length. unfold fichier_resultat, d in Hin.
      rewrite !length_app in Hin. simpl in Hin. lia. }
  eexists _, (feuille_finale df'). split; [|apply lookup_insert_eq].
  unfold main. cbv zeta. rewrite (bind_M_Ok _ _ _ _ _ Hmk).
  rewrite (bind_M_Ok _ _ σ0 σ0 (inr p))
    by (rewrite decide_True; [done|by apply existe_avec_dossiers]).
  fold d.
  assert (analyser_dechargement p d σ0
          = (<[fichier_resultat p d := Fichier (feuille_finale df')]>
               (avec_dossiers σ0 d), Ok (fichier_resultat p d))) as ->; [|done].
  unfold analyser_dechargement.
  rewrite (bind_M_Ok _ _ σ0 σ0 df_lu) by (by rewrite Hlu).
  cbv zeta. rewrite (bind_M_Ok _ _ σ0 σ0 df') by (unfold lever; by rewrite Hc).
  exact He.
Qed.

End Point_d_entree_theoremes.

(** ** Examples of the entry point *)

Lemma template_created_once_witness :
  ∃ σ' : fs,
    creer_fichier_modele (H := bibliotheque_exemple df_scenario) [Excel]
      {[ [Excel] := Dossier ]} = (σ', Ok tt) ∧
    creer_fichier_modele (H := bibliotheque_exemple df_scenario) [Excel] σ'
    = (σ', Ok tt) ∧
    (∀ q, q ≠ [Excel] ++ [modele_import_xlsx] →
          σ' !! q = ({[ [Excel] := Dossier ]} : fs) !! q) ∧
    (existe {[ [Excel] := Dossier ]} ([Excel] ++ [modele_import_xlsx]) →
     σ' = {[ [Excel] := Dossier ]}) ∧
    (¬ existe {[ [Excel] := Dossier ]} ([Excel] ++ [modele_import_xlsx]) →
     ∃ ws, σ' !! ([Excel] ++ [modele_import_xlsx]) = Some (Fichier ws) ∧
           rows ws = [(fun l => {| value := XStr l; number_format := General |})
                      <$> COLONNES_MODELE]).
Proof.
  apply (template_created_once (H := bibliotheque_exemple df_scenario)
           {[ [Excel] := Dossier ]} [Excel]).
  right. apply lookup_singleton_eq.
Defined.

Lemma excel_libre_dans_entree :
  ∀ q, q ∈ ancetres (cwd_exemple ++ [Excel]) → ¬ est_fichier fs_entree q.
Proof.
  intros q Hq [ws Hws]. unfold fs_entree in Hws.
  apply lookup_singleton_Some in Hws as [<- _].
  apply list_elem_of_In in Hq. vm_compute in Hq.
  destruct Hq as [Hq|[Hq|[Hq|[]]]]; discriminate Hq.
Defined.

Lemma sortie_libre_dans_entree :
  ∀ q, q ∈ ancetres (cwd_exemple ++ [Data_Analysis; date_exemple]) →
       ¬ est_fichier fs_entree q.
Proof.
  intros q Hq [ws Hws]. unfold fs_entree in Hws.
  apply lookup_singleton_Some in Hws as [<- _].
  apply list_elem_of_In in Hq. vm_compute in Hq.
  destruct Hq as [Hq|[Hq|[Hq|[Hq|[]]]]]; discriminate Hq.
Defined.

Lemma main_input_not_found_witness :
  ∃ σ' : fs,
    main (H := bibliotheque_exemple df_scenario) cwd_exemple date_exemple
      (Some fichier_xls) None fs_entree
    = (σ', Ok (Fichier_introuvable fichier_xls)) ∧
    (∀ q, q ∈ ancetres (cwd_exemple ++ [Excel]) → σ' !! q = Some Dossier) ∧
    (∀ q, q ∉ ancetres (cwd_exemple ++ [Excel]) → σ' !! q = fs_entree !! q).
Proof.
  apply (main_input_not_found (H := bibliotheque_exemple df_scenario)
           cwd_exemple date_exemple fichier_xls None fs_entree).
  - apply excel_libre_dans_entree.
  - discriminate.
  - unfold fs_entree. apply lookup_singleton_ne.
    intros Heq. vm_compute in Heq. discriminate Heq.
  - intros Hq. apply list_elem_of_In in Hq. vm_compute in Hq.
    destruct Hq as [Hq|[Hq|[Hq|[]]]]; discriminate Hq.
Defined.

Lemma main_first_run_writes_template_witness :
  ∃ (σ' : fs) ws,
    main (H := bibliotheque_exemple df_scenario) cwd_exemple date_exemple
      None (Some fichier_exemple) ∅
    = (σ', Ok Aucun_fichier_trouve) ∧
    σ' !! (cwd_exemple ++ [Excel] ++ [modele_import_xlsx])
    = Some (Fichier ws) ∧
    rows ws = [(fun l => {| value := XStr l; number_format := General |})
               <$> COLONNES_MODELE] ∧
    main (H := bibliotheque_exemple df_scenario) cwd_exemple date_exemple
      None None σ'
    = (σ', Ok Aucun_fichier_selectionne).
Proof.
  apply (main_first_run_writes_template
           (H := bibliotheque_exemple df_scenario)
           cwd_exemple date_exemple (Some fichier_exemple) ∅).
  - apply rien_dans_vide.
  - unfold glob_xlsx. apply map_not_Exists, map_Forall_empty.
Defined.


Lemma main_writes_under_dated_directory_witness :
  ∃ (σ' : fs) ws,
    main (H := bibliotheque_exemple df_scenario_espace)
      cwd_exemple date_exemple (Some fichier_exemple) None fs_entree
    = (σ', Ok (Resultat_ouvert
                 (cwd_exemple ++ [Data_Analysis; date_exemple]
                  ++ [stem fichier_exemple ++ resultats_xlsx]))) ∧
    σ' !! (cwd_exemple ++ [Data_Analysis; date_exemple]
           ++ [stem fichier_exemple ++ resultats_xlsx])
    = Some (Fichier ws).
Proof.
  apply (main_writes_under_dated_directory
           (H := bibliotheque_exemple df_scenario_espace)
           cwd_exemple date_exemple fichier_exemple None fs_entree
           df_scenario_espace [150%float] [100%float]
           (Spans [Some 2400000000000%Z]) (Spans [Some 3600000000000%Z])
           [5200%float] [5000%float] [45%float]).
  - apply excel_libre_dans_entree.
  - right. unfold fs_entree. rewrite lookup_singleton_eq. by eexists.
  - reflexivity.
  - apply NoDup_scenario_espace.
  - apply colonnes_brutes_scenario_espace.
  - apply sortie_libre_dans_entree.
  - unfold fs_entree. rewrite lookup_singleton_ne; [done|].
    intros Heq. vm_compute in Heq. discriminate Heq.
Defined.
